(** * Simulator scripts of the Flogo sample templates

    A shallow embedding of the two simulator scripts

    - [inventory_events.py]     (MQTT inventory events, broker variant)
    - [simulate_sensor_data.py] (gRPC sensor telemetry, RPC variant)

    together with the fragment of the Python runtime they call
    ([json], [random], [uuid], [time], [datetime]), and the properties
    of the scripts stated over that embedding.

    Conventions.
    - A Python [str] is a Rocq [string]; every character stands for the
      code point of the same number (0..255).
    - A Python [int] is a [Z].
    - A Python [float] that the scripts compute is a binary64 number on
      the grid of multiples of 2^-53; it is kept as the integer number
      of grid steps (see [pyfloat]).
    - Everything the scripts take from the outside (random draws, the
      wall clock, the failures of the transport library) comes from an
      [oracle]; everything they do to the outside is an [effect]. *)

From Stdlib Require Import ZArith List String Ascii Bool Lia QArith.
From Stdlib Require Import DecimalString DecimalZ.
Import ListNotations.

#[local] Open Scope string_scope.
#[local] Open Scope Z_scope.

(* ================================================================== *)
(** * The Python runtime fragment *)
(* ================================================================== *)

Module Py.

(** ** Characters and text helpers *)

Definition dquote : ascii := "034"%char.
Definition backslash : ascii := "092"%char.

Definition is_digit (c : ascii) : bool :=
  ((48 <=? N_of_ascii c) && (N_of_ascii c <=? 57))%N.

(** [str(n)] / [repr(n)] of an [int]. *)
Definition int_repr (n : Z) : string :=
  NilZero.string_of_int (Z.to_int n).

(** [s.rjust(w, "0")], which is what the [%0wd] conversions do to the
    decimal text of a non-negative number. *)
Definition zero_pad (w : nat) (s : string) : string :=
  string_of_list_ascii (repeat "0"%char (w - String.length s)) ++ s.

(** ["%0wd" % n] *)
Definition fmt_0d (w : nat) (n : Z) : string :=
  if n <? 0
  then String "-" (zero_pad (w - 1) (int_repr (- n)))
  else zero_pad w (int_repr n).

Definition hex_digit (n : Z) : ascii :=
  ascii_of_N (Z.to_N (if n <? 10 then 48 + n else 87 + n)).

(** The [w] low hexadecimal digits of [n], most significant first:
    ["%0wx" % n] for [0 <= n < 16^w]. *)
Fixpoint hex_fixed (w : nat) (n : Z) : string :=
  match w with
  | O => EmptyString
  | S w' =>
      String (hex_digit (Z.land (Z.shiftr n (4 * Z.of_nat w')) 15))
             (hex_fixed w' n)
  end.

(** ** Values and dictionaries

    The values the scripts put in a dictionary are [str] and [int].
    A [dict] keeps its keys in insertion order, which is the order
    [json.dumps] writes them in. *)

Inductive value : Type :=
| VStr (s : string)
| VInt (n : Z).

Definition dict : Type := list (string * value).

Fixpoint dict_set (k : string) (v : value) (d : dict) : dict :=
  match d with
  | [] => [(k, v)]
  | (k', v') :: d' =>
      if String.eqb k k' then (k, v) :: d' else (k', v') :: dict_set k v d'
  end.

Fixpoint dict_get (k : string) (d : dict) : option value :=
  match d with
  | [] => None
  | (k', v) :: d' => if String.eqb k k' then Some v else dict_get k d'
  end.

Definition dict_keys (d : dict) : list string := map fst d.

(** [dict(pairs)] and the display [{k1: v1, ..., kn: vn}]: the pairs are
    entered from left to right. *)
Definition dict_of_pairs (ps : list (string * value)) : dict :=
  fold_left (fun d kv => dict_set (fst kv) (snd kv) d) ps [].

(** ** [json.dumps] (default options: [ensure_ascii], separators
       [", "] and [": "]) *)

(** One character of [encode_basestring_ascii]. *)
Definition escape_char (c : ascii) : string :=
  let n := N_of_ascii c in
  if (n =? 34)%N then String backslash (String dquote EmptyString)
  else if (n =? 92)%N then String backslash (String backslash EmptyString)
  else if (n =? 10)%N then String backslash "n"
  else if (n =? 13)%N then String backslash "r"
  else if (n =? 9)%N then String backslash "t"
  else if (n =? 12)%N then String backslash "f"
  else if (n =? 8)%N then String backslash "b"
  else if ((32 <=? n) && (n <=? 126))%N then String c EmptyString
  else String backslash (String "u" (hex_fixed 4 (Z.of_N n))).

Fixpoint escape_chars (s : string) : string :=
  match s with
  | EmptyString => EmptyString
  | String c r => escape_char c ++ escape_chars r
  end.

Definition encode_basestring_ascii (s : string) : string :=
  String dquote (escape_chars s ++ String dquote EmptyString).

Definition dumps_value (v : value) : string :=
  match v with
  | VStr s => encode_basestring_ascii s
  | VInt n => int_repr n
  end.

Definition dumps_item (kv : string * value) : string :=
  encode_basestring_ascii (fst kv) ++ ": " ++ dumps_value (snd kv).

Fixpoint dumps_items (d : dict) : string :=
  match d with
  | [] => EmptyString
  | [kv] => dumps_item kv
  | kv :: d' => dumps_item kv ++ ", " ++ dumps_items d'
  end.

Definition json_dumps (d : dict) : string :=
  "{" ++ dumps_items d ++ "}".

(** ** [json.loads]

    The decoder is modelled on the documents the encoder above writes:
    one object whose values are strings and integers.  Any other
    document (nested containers, floats, literals, code points above
    255) is outside the fragment, and the model answers [None] for it as
    it does for a malformed document. *)

Definition is_ws (c : ascii) : bool :=
  let n := N_of_ascii c in
  ((n =? 32) || (n =? 9) || (n =? 10) || (n =? 13))%N.

Fixpoint skip_ws (s : string) : string :=
  match s with
  | String c r => if is_ws c then skip_ws r else s
  | EmptyString => s
  end.

Definition hex_value (c : ascii) : option Z :=
  let n := Z.of_N (N_of_ascii c) in
  if (48 <=? n) && (n <=? 57) then Some (n - 48)
  else if (97 <=? n) && (n <=? 102) then Some (n - 87)
  else if (65 <=? n) && (n <=? 70) then Some (n - 55)
  else None.

(** The eight one-letter escapes of the decoder's [BACKSLASH] table. *)
Definition unescape (c : ascii) : option ascii :=
  let n := N_of_ascii c in
  if (n =? 34)%N then Some dquote
  else if (n =? 92)%N then Some backslash
  else if (n =? 47)%N then Some "/"%char
  else if (n =? 98)%N then Some "008"%char
  else if (n =? 102)%N then Some "012"%char
  else if (n =? 110)%N then Some "010"%char
  else if (n =? 114)%N then Some "013"%char
  else if (n =? 116)%N then Some "009"%char
  else None.

(** [scanstring], entered after the opening quote: the decoded text and
    what follows the closing quote. *)
Fixpoint scanstring (s : string) : option (string * string) :=
  match s with
  | EmptyString => None
  | String c r =>
      if (N_of_ascii c =? 34)%N then Some (EmptyString, r)
      else if (N_of_ascii c =? 92)%N then
        match r with
        | EmptyString => None
        | String e r1 =>
            if (N_of_ascii e =? 117)%N then
              match r1 with
              | String h1 (String h2 (String h3 (String h4 r2))) =>
                  match hex_value h1, hex_value h2, hex_value h3, hex_value h4 with
                  | Some a, Some b, Some c', Some d =>
                      let cp := ((a * 16 + b) * 16 + c') * 16 + d in
                      if cp <? 256 then
                        match scanstring r2 with
                        | Some (t, rest) =>
                            Some (String (ascii_of_N (Z.to_N cp)) t, rest)
                        | None => None
                        end
                      else None
                  | _, _, _, _ => None
                  end
              | _ => None
              end
            else
              match unescape e with
              | Some ch =>
                  match scanstring r1 with
                  | Some (t, rest) => Some (String ch t, rest)
                  | None => None
                  end
              | None => None
              end
        end
      else if (N_of_ascii c <? 32)%N then None
      else
        match scanstring r with
        | Some (t, rest) => Some (String c t, rest)
        | None => None
        end
  end.

Definition digit_of_char (c : ascii) : option (Decimal.uint -> Decimal.uint) :=
  match N_of_ascii c with
  | 48%N => Some Decimal.D0 | 49%N => Some Decimal.D1
  | 50%N => Some Decimal.D2 | 51%N => Some Decimal.D3
  | 52%N => Some Decimal.D4 | 53%N => Some Decimal.D5
  | 54%N => Some Decimal.D6 | 55%N => Some Decimal.D7
  | 56%N => Some Decimal.D8 | 57%N => Some Decimal.D9
  | _ => None
  end.

(** The longest run of decimal digits at the head of [s]. *)
Fixpoint scan_digits (s : string) : Decimal.uint * string :=
  match s with
  | EmptyString => (Decimal.Nil, s)
  | String c r =>
      match digit_of_char c with
      | Some d => let (u, rest) := scan_digits r in (d u, rest)
      | None => (Decimal.Nil, s)
      end
  end.

Definition starts_with_digit (s : string) : bool :=
  match s with
  | String c _ => is_digit c
  | EmptyString => false
  end.

(** Whether a fraction or an exponent follows the integer part: the
    number is then a float. *)
Definition float_follows (s : string) : bool :=
  match s with
  | String c r =>
      let n := N_of_ascii c in
      if (n =? 46)%N then starts_with_digit r
      else if ((n =? 101) || (n =? 69))%N then
        match r with
        | String sg r' =>
            if ((N_of_ascii sg =? 43) || (N_of_ascii sg =? 45))%N
            then starts_with_digit r'
            else is_digit sg
        | EmptyString => false
        end
      else false
  | EmptyString => false
  end.

(** [NUMBER_RE]: an optional minus sign, then either a single zero or a
    run of digits that does not start with zero; an [int] unless a
    fraction or an exponent follows. *)
Definition scan_number (s : string) : option (Z * string) :=
  let (neg, s1) :=
    match s with
    | String c r => if (N_of_ascii c =? 45)%N then (true, r) else (false, s)
    | EmptyString => (false, s)
    end in
  match s1 with
  | EmptyString => None
  | String c r =>
      if (N_of_ascii c =? 48)%N then
        if float_follows r then None else Some (0, r)
      else if is_digit c then
        let (u, rest) := scan_digits s1 in
        if float_follows rest then None
        else Some (if neg then - Z.of_uint u else Z.of_uint u, rest)
      else None
  end.

(** [scan_once] on the fragment: a string or an integer. *)
Definition scan_once (s : string) : option (value * string) :=
  match s with
  | EmptyString => None
  | String c r =>
      if (N_of_ascii c =? 34)%N then
        match scanstring r with
        | Some (t, rest) => Some (VStr t, rest)
        | None => None
        end
      else
        match scan_number s with
        | Some (n, rest) => Some (VInt n, rest)
        | None => None
        end
  end.

(** The loop of [JSONObject], entered after the opening quote of a key.
    Every round consumes input, so the length of the text is fuel
    enough. *)
Fixpoint object_pairs (fuel : nat) (s : string)
  : option (list (string * value) * string) :=
  match fuel with
  | O => None
  | S fuel' =>
      match scanstring s with
      | None => None
      | Some (key, s1) =>
          match skip_ws s1 with
          | String c1 s2 =>
              if (N_of_ascii c1 =? 58)%N then
                match scan_once (skip_ws s2) with
                | None => None
                | Some (v, s3) =>
                    match skip_ws s3 with
                    | String c2 s4 =>
                        if (N_of_ascii c2 =? 125)%N then Some ([(key, v)], s4)
                        else if (N_of_ascii c2 =? 44)%N then
                          match skip_ws s4 with
                          | String q s5 =>
                              if (N_of_ascii q =? 34)%N then
                                match object_pairs fuel' s5 with
                                | Some (ps, rest) => Some ((key, v) :: ps, rest)
                                | None => None
                                end
                              else None
                          | EmptyString => None
                          end
                        else None
                    | EmptyString => None
                    end
                end
              else None
          | EmptyString => None
          end
      end
  end.

(** [JSONObject], entered after the opening brace. *)
Definition json_object (fuel : nat) (s : string)
  : option (list (string * value) * string) :=
  match skip_ws s with
  | String c r =>
      if (N_of_ascii c =? 125)%N then Some ([], r)
      else if (N_of_ascii c =? 34)%N then object_pairs fuel r
      else None
  | EmptyString => None
  end.

Definition json_loads (s : string) : option dict :=
  match skip_ws s with
  | String c r =>
      if (N_of_ascii c =? 123)%N then
        match json_object (String.length s) r with
        | Some (ps, rest) =>
            match skip_ws rest with
            | EmptyString => Some (dict_of_pairs ps)
            | String _ _ => None
            end
        | None => None
        end
      else None
  | EmptyString => None
  end.

(** ** Floats

    The floats of the scripts come from [random.uniform(a, b)] with
    small positive integers [a < b].  [random.random()] is an integer
    [k] with [0 <= k < 2^53], divided by [2^53]; the product with the
    integer [b - a] and the sum with the integer [a] are multiples of
    [2^-53] before they are rounded, far from overflow and from the
    subnormal range.  Such a binary64 number is kept as its number of
    grid steps: [PyFloat m] is [m / 2^53]. *)

Record pyfloat : Type := PyFloat { steps : Z }.

Definition grid : Z := 2 ^ 53.

Definition float_value (x : pyfloat) : Q := Qmake (steps x) (Z.to_pos grid).

(** Round to nearest, ties to even, to 53 significant bits: binary64
    rounding of the non-negative number of grid steps [m]. *)
Definition round53_nonneg (m : Z) : Z :=
  let s := Z.log2 m + 1 - 53 in
  if s <=? 0 then m
  else
    let q := Z.shiftr m s in
    let r := m - Z.shiftl q s in
    let half := Z.shiftl 1 (s - 1) in
    if r <? half then Z.shiftl q s
    else if half <? r then Z.shiftl (q + 1) s
    else if Z.even q then Z.shiftl q s
    else Z.shiftl (q + 1) s.

(** The grid steps that are binary64 numbers: at most 53 significant
    bits. *)
Definition is_binary64 (m : Z) : bool :=
  (Z.log2 m <? 53) || (m mod 2 ^ (Z.log2 m - 52) =? 0).

Definition round53 (m : Z) : Z :=
  if m <? 0 then - round53_nonneg (- m) else round53_nonneg m.

(** [n * x] for an [int] [n] and the float [x = k / 2^53] that
    [random.random()] returns. *)
Definition float_mul_int (n : Z) (k : Z) : pyfloat := PyFloat (round53 (n * k)).

(** [n + x] for an [int] [n] and a float [x]. *)
Definition float_add_int (n : Z) (x : pyfloat) : pyfloat :=
  PyFloat (round53 (n * grid + steps x)).

(** [random.uniform(a, b)], which is [a + (b - a) * self.random()], on
    the draw [k / 2^53] of [random()]. *)
Definition uniform (a b : Z) (k : Z) : pyfloat :=
  float_add_int a (float_mul_int (b - a) k).

(** ** [uuid.uuid4] and [str] of a UUID

    [r] is the 128-bit integer of the sixteen bytes of [os.urandom]. *)
Definition uuid4_int (r : Z) : Z :=
  let i1 := Z.land r (Z.lnot (Z.shiftl 49152 48)) in   (* 0xc000 *)
  let i2 := Z.lor i1 (Z.shiftl 32768 48) in            (* 0x8000 *)
  let i3 := Z.land i2 (Z.lnot (Z.shiftl 61440 64)) in  (* 0xf000 *)
  Z.lor i3 (Z.shiftl 4 76).

Definition uuid_str (i : Z) : string :=
  let hex := hex_fixed 32 i in
  substring 0 8 hex ++ "-" ++ substring 8 4 hex ++ "-" ++
  substring 12 4 hex ++ "-" ++ substring 16 4 hex ++ "-" ++
  substring 20 12 hex.

(** ** The wall clock: [datetime.now()] and [time.localtime()] *)

Record datetime : Type := DateTime {
  year : Z; month : Z; day : Z;
  hour : Z; minute : Z; second : Z;
  microsecond : Z
}.

(** What the clock can show: the ranges of [datetime], and a year of
    four digits. *)
Definition valid_datetime (t : datetime) : Prop :=
  1000 <= year t <= 9999 /\ 1 <= month t <= 12 /\ 1 <= day t <= 31 /\
  0 <= hour t <= 23 /\ 0 <= minute t <= 59 /\ 0 <= second t <= 61 /\
  0 <= microsecond t <= 999999.

(** [datetime.isoformat()] of a naive datetime. *)
Definition isoformat (t : datetime) : string :=
  fmt_0d 4 (year t) ++ "-" ++ fmt_0d 2 (month t) ++ "-" ++ fmt_0d 2 (day t)
  ++ "T" ++
  fmt_0d 2 (hour t) ++ ":" ++ fmt_0d 2 (minute t) ++ ":" ++ fmt_0d 2 (second t)
  ++ (if microsecond t =? 0 then EmptyString
      else "." ++ fmt_0d 6 (microsecond t)).

(** [time.strftime("%Y-%m-%d %H:%M:%S")]: [%Y] is the year in decimal,
    the other five conversions are two digits wide. *)
Definition strftime_Ymd_HMS (t : datetime) : string :=
  int_repr (year t) ++ "-" ++ fmt_0d 2 (month t) ++ "-" ++ fmt_0d 2 (day t)
  ++ " " ++
  fmt_0d 2 (hour t) ++ ":" ++ fmt_0d 2 (minute t) ++ ":" ++ fmt_0d 2 (second t).

(** The shape [YYYY-MM-DD HH:MM:SS], one character class per position. *)
Inductive shape : Type := Digit | Lit (c : ascii).

Definition shape_ok (p : shape) (c : ascii) : bool :=
  match p with
  | Digit => is_digit c
  | Lit l => Ascii.eqb c l
  end.

Fixpoint has_shape (ps : list shape) (s : string) : bool :=
  match ps, s with
  | [], EmptyString => true
  | p :: ps', String c s' => shape_ok p c && has_shape ps' s'
  | _, _ => false
  end.

Definition shape_Ymd_HMS : list shape :=
  [Digit; Digit; Digit; Digit; Lit "-"; Digit; Digit; Lit "-"; Digit; Digit;
   Lit " ";
   Digit; Digit; Lit ":"; Digit; Digit; Lit ":"; Digit; Digit]%char.

(** ** Exceptions *)

(** An instance of a subclass of [Exception]: the class name and the
    message. *)
Record exn : Type := Exn { exn_class : string; exn_msg : string }.

(** ** The outside world *)

(** What the scripts take from the outside.  Each stream is read at the
    position the [cursor] holds for it.  Exceptions come from the calls
    of the MQTT client and of the RPC stub; a keyboard interrupt, when
    one arrives, reaches the script in a sleep, where it spends its
    time. *)
Record oracle : Type := Oracle {
  randbelow : nat -> nat -> nat;   (* i-th [_randbelow(n)] *)
  random : nat -> Z;               (* i-th [random()], times 2^53 *)
  urandom16 : nat -> Z;            (* i-th [os.urandom(16)], big endian *)
  wall_clock : nat -> datetime;    (* i-th reading of the clock *)
  fault : nat -> option exn;       (* whether the i-th transport call raises *)
  sigint : nat -> bool             (* whether an interrupt arrives in the i-th sleep *)
}.

Record cursor : Type := Cursor {
  n_randbelow : nat;
  n_random : nat;
  n_urandom : nat;
  n_clock : nat;
  n_call : nat;
  n_sleep : nat
}.

Definition cursor0 : cursor := Cursor 0 0 0 0 0 0.

(** The contract of the generators and of the clock. *)
Record oracle_ok (o : oracle) : Prop := {
  randbelow_lt : forall i n, (0 < n)%nat -> (randbelow o i n < n)%nat;
  random_range : forall i, 0 <= random o i < grid;
  urandom_range : forall i, 0 <= urandom16 o i < 2 ^ 128;
  clock_valid : forall i, valid_datetime (wall_clock o i)
}.

Definition no_fault (o : oracle) : Prop := forall i, fault o i = None.

(** No keyboard interrupt arrives while the script sleeps. *)
Definition no_interrupt (o : oracle) : Prop := forall i, sigint o i = false.

(** ** Shapes of texts *)

Fixpoint all_chars (P : ascii -> bool) (s : string) : bool :=
  match s with
  | EmptyString => true
  | String c r => P c && all_chars P r
  end.

(** One test per position. *)
Fixpoint matches (ps : list (ascii -> bool)) (s : string) : bool :=
  match ps, s with
  | [], EmptyString => true
  | p :: ps', String c s' => p c && matches ps' s'
  | _, _ => false
  end.

(** The printable ASCII characters, space to tilde. *)
Definition is_printable (c : ascii) : bool :=
  ((32 <=? N_of_ascii c) && (N_of_ascii c <=? 126))%N.

(** A lower-case hexadecimal digit. *)
Definition is_hex_char (c : ascii) : bool :=
  is_digit c || ((97 <=? N_of_ascii c) && (N_of_ascii c <=? 102))%N.

(** The text of a version 4, RFC 4122 UUID: 8-4-4-4-12 hexadecimal
    digits, the first digit of the third group is 4 and the first digit
    of the fourth group is 8, 9, a or b. *)
Definition uuid4_shape : list (ascii -> bool) :=
  let hex := is_hex_char in
  let dash := Ascii.eqb "-" in
  let variant := fun c => existsb (Ascii.eqb c) ["8"; "9"; "a"; "b"]%char in
  [hex; hex; hex; hex; hex; hex; hex; hex; dash;
   hex; hex; hex; hex; dash;
   Ascii.eqb "4"; hex; hex; hex; dash;
   variant; hex; hex; hex; dash;
   hex; hex; hex; hex; hex; hex; hex; hex; hex; hex; hex; hex].

(** The ranges of the fields of a [datetime] object. *)
Definition datetime_in_range (t : datetime) : Prop :=
  1 <= year t <= 9999 /\ 1 <= month t <= 12 /\ 1 <= day t <= 31 /\
  0 <= hour t <= 23 /\ 0 <= minute t <= 59 /\ 0 <= second t <= 59 /\
  0 <= microsecond t <= 999999.

(** [YYYY-MM-DDTHH:MM:SS] and [YYYY-MM-DDTHH:MM:SS.ffffff]. *)
Definition shape_iso_seconds : list shape :=
  [Digit; Digit; Digit; Digit; Lit "-"; Digit; Digit; Lit "-"; Digit; Digit;
   Lit "T";
   Digit; Digit; Lit ":"; Digit; Digit; Lit ":"; Digit; Digit]%char.

Definition shape_iso_micro : list shape :=
  (shape_iso_seconds ++
   [Lit "."; Digit; Digit; Digit; Digit; Digit; Digit]%char)%list.

End Py.

(* ================================================================== *)
(** * The generated gRPC module [sensor_pb2] *)
(* ================================================================== *)

Module Sensor_pb2.

(** Modelled from the spec: the message class [sensor_pb2.SensorData]
    is generated from a service definition that is not among the
    sources; the record has the five fields the specification lists for
    a SensorReading, which are the five keywords the script passes. *)
Record SensorData : Type := Build_SensorData {
  sensor_id : string;
  temperature : Py.pyfloat;
  pressure : Py.pyfloat;
  humidity : Py.pyfloat;
  timestamp : string
}.

End Sensor_pb2.

(* ================================================================== *)
(** * Effects and the monad of the scripts *)
(* ================================================================== *)

Module World.
Import Py.

(** The argument of [time.sleep]: an [int] or a [float]. *)
Inductive number : Type :=
| NInt (n : Z)
| NFloat (x : pyfloat).

(** A line on the console, kept as the literal it starts with and the
    values formatted into it. *)
Inductive console_line : Type :=
| LineConnected                                     (* "Connected to MQTT Broker!" *)
| LineConnectFailed (rc : Z)                        (* "Failed to connect, return code {rc}" *)
| LinePublished (topic : string) (payload : dict)   (* "Published to topic '{topic}': {payload}" *)
| LineStarting                                      (* "Starting inventory sensor simulation..." *)
| LineError (e : exn)                               (* "An error occurred: {e}" *)
| LineFinished                                      (* "Simulation finished." *)
| LineSent (msg : Sensor_pb2.SensorData).           (* "Sent sensor data:", msg *)

(** What a script does to the outside, one constructor per call. *)
Inductive effect : Type :=
| MqttUsernamePwSet (user password : string)
| MqttConnect (host : string) (port keepalive : Z)
| MqttLoopStart
| MqttPublish (topic payload : string)
| MqttLoopStop
| MqttDisconnect
| GrpcChannelOpen (target : string)
| GrpcSendTelemetryData (msg : Sensor_pb2.SensorData)
| GrpcChannelClose
| Print (l : console_line)
| Sleep (seconds : number).

Definition is_error_line (e : effect) : bool :=
  match e with
  | Print (LineError _) => true
  | _ => false
  end.

Definition not_error_line (e : effect) : Prop := is_error_line e = false.

(** How a computation stands: it returned, it raised an instance of
    [Exception], it is still running when the fuel of a [while] loop is
    spent, or a [KeyboardInterrupt] is on its way up.
    [KeyboardInterrupt] is not an instance of [Exception]:
    [except Exception] lets it pass. *)
Inductive result (A : Type) : Type :=
| Ok (a : A)
| Raise (e : exn)
| Running
| Interrupted.

Arguments Ok {A} a.
Arguments Raise {A} e.
Arguments Running {A}.
Arguments Interrupted {A}.

(** A computation reads the oracle at the cursor, moves the cursor and
    lists its effects in the order they happen. *)
Definition M (A : Type) : Type :=
  oracle -> cursor -> result A * cursor * list effect.

Definition ret {A} (a : A) : M A := fun _ c => (Ok a, c, []).

Definition bind {A B} (m : M A) (f : A -> M B) : M B :=
  fun o c =>
    match m o c with
    | (Ok a, c1, out1) =>
        match f a o c1 with (r, c2, out2) => (r, c2, (out1 ++ out2)%list) end
    | (Raise e, c1, out1) => (Raise e, c1, out1)
    | (Running, c1, out1) => (Running, c1, out1)
    | (Interrupted, c1, out1) => (Interrupted, c1, out1)
    end.

Notation "x <- m ;; k" := (bind m (fun x => k))
  (at level 61, m at next level, right associativity).
Notation "m ;; k" := (bind m (fun _ => k))
  (at level 61, right associativity).

Definition emit (e : effect) : M unit := fun _ c => (Ok tt, c, [e]).

(** ** Control structures *)

(** [try: body / except Exception as e: handler e]: the handler runs
    for an instance of [Exception]; a [KeyboardInterrupt] is not caught. *)
Definition try_except {A} (body : M A) (handler : exn -> M A) : M A :=
  fun o c =>
    match body o c with
    | (Raise e, c1, out1) =>
        match handler e o c1 with (r, c2, out2) => (r, c2, (out1 ++ out2)%list) end
    | other => other
    end.

(** [try: body / finally: cleanup]: the cleanup runs when the body
    returned, when it raised and when it was interrupted; an exception
    of the cleanup replaces the outcome of the body. *)
Definition try_finally {A} (body : M A) (cleanup : M unit) : M A :=
  fun o c =>
    match body o c with
    | (Running, c1, out1) => (Running, c1, out1)
    | (r, c1, out1) =>
        match cleanup o c1 with
        | (Ok _, c2, out2) => (r, c2, (out1 ++ out2)%list)
        | (Raise e, c2, out2) => (Raise e, c2, (out1 ++ out2)%list)
        | (Running, c2, out2) => (Running, c2, (out1 ++ out2)%list)
        | (Interrupted, c2, out2) => (Interrupted, c2, (out1 ++ out2)%list)
        end
    end.

(** [for x in xs: body x] *)
Fixpoint for_in {A} (xs : list A) (body : A -> M unit) : M unit :=
  match xs with
  | [] => ret tt
  | x :: xs' => body x ;; for_in xs' body
  end.

Definition range (n : nat) : list nat := seq 0 n.

(** [while True: body], for as many rounds as there is fuel. *)
Fixpoint while_true (fuel : nat) (body : M unit) : M unit :=
  match fuel with
  | O => fun _ c => (Running, c, [])
  | S fuel' => body ;; while_true fuel' body
  end.

(** ** Library calls *)

(** [print(...)]: the line goes to the console; writing to the console
    is taken not to fail. *)
Definition print (l : console_line) : M unit := emit (Print l).

(** [time.sleep(seconds)]: the script spends its time here, and here a
    keyboard interrupt reaches it; the sleep then ends with
    [KeyboardInterrupt]. *)
Definition time_sleep (seconds : number) : M unit :=
  fun o c =>
    let c' := Cursor (n_randbelow c) (n_random c) (n_urandom c)
                     (n_clock c) (n_call c) (S (n_sleep c)) in
    if sigint o (n_sleep c)
    then (Interrupted, c', [Sleep seconds])
    else (Ok tt, c', [Sleep seconds]).

(** [random.choice(seq)] is [seq[self._randbelow(len(seq))]]. *)
Definition random_choice {A} (xs : list A) : M A :=
  fun o c =>
    let i := randbelow o (n_randbelow c) (List.length xs) in
    let c' := Cursor (S (n_randbelow c)) (n_random c) (n_urandom c)
                     (n_clock c) (n_call c) (n_sleep c) in
    match nth_error xs i with
    | Some x => (Ok x, c', [])
    | None => (Raise (Exn "IndexError" "list index out of range"), c', [])
    end.

Definition random_uniform (a b : Z) : M pyfloat :=
  fun o c =>
    (Ok (uniform a b (random o (n_random c))),
     Cursor (n_randbelow c) (S (n_random c)) (n_urandom c)
            (n_clock c) (n_call c) (n_sleep c),
     []).

Definition uuid_uuid4 : M Z :=
  fun o c =>
    (Ok (uuid4_int (urandom16 o (n_urandom c))),
     Cursor (n_randbelow c) (n_random c) (S (n_urandom c))
            (n_clock c) (n_call c) (n_sleep c),
     []).

Definition read_clock : M datetime :=
  fun o c =>
    (Ok (wall_clock o (n_clock c)),
     Cursor (n_randbelow c) (n_random c) (n_urandom c)
            (S (n_clock c)) (n_call c) (n_sleep c),
     []).

Definition datetime_now : M datetime := read_clock.

(** [time.strftime("%Y-%m-%d %H:%M:%S")], on [time.localtime()]. *)
Definition time_strftime_Ymd_HMS : M string :=
  t <- read_clock ;; ret (strftime_Ymd_HMS t).

(** A call into a transport library that may raise: the call is an
    effect, and the oracle says whether it raises. *)
Definition transport_call (e : effect) : M unit :=
  fun o c =>
    let c' := Cursor (n_randbelow c) (n_random c) (n_urandom c)
                     (n_clock c) (S (n_call c)) (n_sleep c) in
    match fault o (n_call c) with
    | None => (Ok tt, c', [e])
    | Some x => (Raise x, c', [e])
    end.

(** ** Two properties of computations

    [emits P m]: every effect of [m] satisfies [P], whatever the oracle
    answers.  [halts m]: [m] never runs out of fuel. *)
Definition emits {A} (P : effect -> Prop) (m : M A) : Prop :=
  forall o c, Forall P (snd (m o c)).

Definition halts {A} (m : M A) : Prop :=
  forall o c, fst (fst (m o c)) <> Running.

(** The dictionaries shown on the console by the "Published" lines. *)
Definition printed_payloads (out : list effect) : list dict :=
  flat_map (fun e => match e with
                     | Print (LinePublished _ p) => [p]
                     | _ => []
                     end) out.

(** Whether a [str] is true in a condition. *)
Definition truthy (s : string) : bool := negb (String.eqb s EmptyString).

(** The exit status of a script whose top level is [m]. *)
Definition exit_status {A} (r : result A) : option Z :=
  match r with
  | Ok _ => Some 0
  | Raise _ => Some 1
  | Running => None
  | Interrupted => Some 130
  end.

(** ** Readings of a trace *)

(** The topic and text of the publishes, in order. *)
Definition published (out : list effect) : list (string * string) :=
  flat_map (fun e => match e with
                     | MqttPublish topic text => [(topic, text)]
                     | _ => []
                     end) out.

(** The topic and the JSON text of the dictionary of the "Published"
    lines, in order. *)
Definition confirmed (out : list effect) : list (string * string) :=
  flat_map (fun e => match e with
                     | Print (LinePublished topic p) => [(topic, json_dumps p)]
                     | _ => []
                     end) out.

(** The time slept, in steps of 2^-53 time units, and in time units. *)
Definition sleep_steps (n : number) : Z :=
  match n with
  | NInt z => z * grid
  | NFloat x => steps x
  end.

Fixpoint total_sleep_steps (out : list effect) : Z :=
  match out with
  | [] => 0
  | Sleep n :: out' => sleep_steps n + total_sleep_steps out'
  | _ :: out' => total_sleep_steps out'
  end.

Definition total_sleep (out : list effect) : Q :=
  Qmake (total_sleep_steps out) (Z.to_pos grid).

Definition is_connect (e : effect) : bool :=
  match e with MqttConnect _ _ _ => true | _ => false end.
Definition is_loop_stop (e : effect) : bool :=
  match e with MqttLoopStop => true | _ => false end.
Definition is_disconnect (e : effect) : bool :=
  match e with MqttDisconnect => true | _ => false end.

(** The effects that open and close the session. *)
Definition not_session (e : effect) : Prop :=
  is_connect e = false /\ is_loop_stop e = false /\ is_disconnect e = false.

Definition count (f : effect -> bool) (out : list effect) : nat :=
  List.length (filter f out).

(** [publishes n m]: [m] publishes at most [n] times, and its console
    confirms its publishes in order, all of them or all but the last. *)
Definition publishes {A} (n : nat) (m : M A) : Prop :=
  forall o c,
    let out := snd (m o c) in
    (List.length (published out) <= n)%nat /\
    (fst (fst (m o c)) <> Running) /\
    match fst (fst (m o c)) with
    | Ok _ => confirmed out = published out
    | _ => confirmed out = published out \/
           exists last, published out = (confirmed out ++ [last])%list
    end.

End World.

(* ================================================================== *)
(** * [inventory_events.py] *)
(* ================================================================== *)

Module InventoryEvents.
Import Py World.

Definition MQTT_BROKER : string := "localhost".
Definition MQTT_PORT : Z := 1883.
Definition MQTT_USER : string := "".
Definition MQTT_PASSWORD : string := "".

Definition STORES : list string := ["london"; "munich"; "paris"; "berlin"].
Definition ITEMS : list string :=
  ["TSHIRT-001"; "JEANS-002"; "SNEAKERS-003"; "HAT-004"; "SCARF-005"].

(** The handle [mqtt.Client()]; its methods are the [Mqtt...] effects.
    [loop_stop] and [disconnect] report a status and do not raise. *)
Inductive Client : Type := MqttClient.

Definition client_username_pw_set (_ : Client) (u p : string) : M unit :=
  emit (MqttUsernamePwSet u p).
Definition client_connect (_ : Client) (host : string) (port keepalive : Z)
  : M unit := transport_call (MqttConnect host port keepalive).
Definition client_loop_start (_ : Client) : M unit :=
  transport_call MqttLoopStart.
Definition client_publish (_ : Client) (topic payload : string) : M unit :=
  transport_call (MqttPublish topic payload).
Definition client_loop_stop (_ : Client) : M unit := emit MqttLoopStop.
Definition client_disconnect (_ : Client) : M unit := emit MqttDisconnect.

(** The callback the network loop calls with the return code of the
    broker; [userdata] and [flags] are not looked at. *)
Definition on_connect {U F : Type} (client : Client) (userdata : U) (flags : F)
    (rc : Z) : M unit :=
  if rc =? 0 then print LineConnected else print (LineConnectFailed rc).

Definition publish_inventory_event
    (client : Client) (store item_id : string) (quantity_change : Z) : M unit :=
  let topic := "store/" ++ store ++ "/inventory" in
  now <- datetime_now ;;
  let timestamp := isoformat now in
  u <- uuid_uuid4 ;;
  let event_id := uuid_str u in
  let event_type := if quantity_change <? 0 then "sales" else "restock" in
  let payload := dict_of_pairs
    [ ("event_id", VStr event_id);
      ("item_id", VStr item_id);
      ("store_id", VStr store);
      ("quantity_change", VInt quantity_change);
      ("event_type", VStr event_type);
      ("timestamp", VStr timestamp) ] in
  client_publish client topic (json_dumps payload) ;;
  print (LinePublished topic payload) ;;
  d <- random_uniform 10 20 ;;
  time_sleep (NFloat d).

(** The suite of the [try] statement of [run_sensor_simulation]. *)
Definition simulation_body (client : Client) : M unit :=
  client_connect client MQTT_BROKER MQTT_PORT 60 ;;
  client_loop_start client ;;
  print LineStarting ;;
  for_in (range 100) (fun _ =>
    store <- random_choice STORES ;;
    item_id <- random_choice ITEMS ;;
    quantity_change <- random_choice [-2; -1; 1; 2] ;;
    publish_inventory_event client store item_id quantity_change) ;;
  time_sleep (NInt 5).

(** [client.on_connect = on_connect] stores the callback in the client
    and has no effect of its own. *)
Definition run_sensor_simulation : M unit :=
  let client := MqttClient in
  (if truthy MQTT_USER && truthy MQTT_PASSWORD
   then client_username_pw_set client MQTT_USER MQTT_PASSWORD
   else ret tt) ;;
  try_finally
    (try_except
       (simulation_body client)
       (fun e => print (LineError e)))
    (client_loop_stop client ;;
     client_disconnect client ;;
     print LineFinished).

(** [if __name__ == "__main__": run_sensor_simulation()] *)
Definition main : M unit := run_sensor_simulation.

(** The dictionary [payload] of [publish_inventory_event], as a function
    of the arguments and of the two texts the function draws. *)
Definition event_payload
    (store item_id : string) (quantity_change : Z)
    (timestamp event_id : string) : dict :=
  [ ("event_id", VStr event_id);
    ("item_id", VStr item_id);
    ("store_id", VStr store);
    ("quantity_change", VInt quantity_change);
    ("event_type", VStr (if quantity_change <? 0 then "sales" else "restock"));
    ("timestamp", VStr timestamp) ].

(** The same dictionary for a call that starts at cursor [c] of the
    oracle [o]. *)
Definition constructed_payload
    (store item_id : string) (quantity_change : Z)
    (o : oracle) (c : cursor) : dict :=
  event_payload store item_id quantity_change
    (isoformat (wall_clock o (n_clock c)))
    (uuid_str (uuid4_int (urandom16 o (n_urandom c)))).

(** The rounds of the loop as they show on the outside: a publish, a
    console line and a sleep, for a store and an item of the catalogs,
    a change among the four and a delay between 10 and 20. *)
Definition is_round (es : list effect) : Prop :=
  exists store item_id quantity_change timestamp event_id d,
    In store STORES /\ In item_id ITEMS /\
    In quantity_change [-2; -1; 1; 2] /\
    (inject_Z 10 <= float_value d <= inject_Z 20)%Q /\
    let topic := "store/" ++ store ++ "/inventory" in
    let payload :=
      event_payload store item_id quantity_change timestamp event_id in
    es = [ MqttPublish topic (json_dumps payload);
           Print (LinePublished topic payload);
           Sleep (NFloat d) ].

(** A publish as the simulator makes it: the topic of a store, and the
    JSON text of a dictionary with the six keys whose [store_id] is that
    store. *)
Definition is_inventory_publish (e : effect) : Prop :=
  match e with
  | MqttPublish topic text =>
      exists store p,
        topic = "store/" ++ store ++ "/inventory" /\
        text = json_dumps p /\
        json_loads text = Some p /\
        dict_keys p = ["event_id"; "item_id"; "store_id"; "quantity_change";
                       "event_type"; "timestamp"] /\
        dict_get "store_id" p = Some (VStr store)
  | _ => True
  end.

(** Determinism of the dictionary in the arguments and the clock alone:
    with the same arguments and the same clock reading, two calls show
    the same dictionary. *)
Definition payload_determined_by_inputs_and_time : Prop :=
  forall (client : Client) (store item_id : string) (quantity_change : Z)
         (o1 o2 : oracle) (c1 c2 : cursor),
    wall_clock o1 (n_clock c1) = wall_clock o2 (n_clock c2) ->
    printed_payloads
      (snd (publish_inventory_event client store item_id quantity_change o1 c1)) =
    printed_payloads
      (snd (publish_inventory_event client store item_id quantity_change o2 c2)).

(** The cursor after [i] rounds of the loop that started at [c]: a
    round draws three selections, one [random()], sixteen random bytes
    once and the clock once, and makes one transport call and one
    sleep. *)
Definition round_cursor (c : cursor) (i : nat) : cursor :=
  Cursor (n_randbelow c + 3 * i) (n_random c + i) (n_urandom c + i)
         (n_clock c + i) (n_call c + i) (n_sleep c + i).

(** What a round that starts at cursor [c] has to do when nothing
    raises: the store, the item and the change are the elements at the
    indexes that the next three draws of the generator give, in this
    order; the timestamp, the event_id and the delay come from the next
    reading of the clock, the next random bytes and the next
    [random()]. *)
Definition round_effects (o : oracle) (c : cursor) : list effect :=
  match nth_error STORES (randbelow o (n_randbelow c) (List.length STORES)),
        nth_error ITEMS (randbelow o (S (n_randbelow c)) (List.length ITEMS)),
        nth_error [-2; -1; 1; 2] (randbelow o (S (S (n_randbelow c))) 4)
  with
  | Some store, Some item_id, Some quantity_change =>
      let topic := "store/" ++ store ++ "/inventory" in
      let payload :=
        event_payload store item_id quantity_change
          (isoformat (wall_clock o (n_clock c)))
          (uuid_str (uuid4_int (urandom16 o (n_urandom c)))) in
      [ MqttPublish topic (json_dumps payload);
        Print (LinePublished topic payload);
        Sleep (NFloat (uniform 10 20 (random o (n_random c)))) ]
  | _, _, _ => []
  end.

(** Every failure of the suite of the [try] statement is caught: the
    script exits with status 0 after one error line. *)
Definition every_failure_is_caught : Prop :=
  forall (o : oracle) (c : cursor),
    fst (fst (simulation_body MqttClient o c)) <> Ok tt ->
    exit_status (fst (fst (main o c))) = Some 0 /\
    count is_error_line (snd (main o c)) = 1%nat.

End InventoryEvents.

(* ================================================================== *)
(** * [simulate_sensor_data.py] *)
(* ================================================================== *)

Module SimulateSensorData.
Import Py World Sensor_pb2.

Definition generate_sensor_data : M SensorData :=
  t <- random_uniform 20 35 ;;
  p <- random_uniform 1000 1100 ;;
  h <- random_uniform 40 60 ;;
  ts <- time_strftime_Ymd_HMS ;;
  ret (Build_SensorData "sensor-123" t p h ts).

(** [with grpc.insecure_channel(target) as channel: body]: the channel
    is closed when the body returns or raises. *)
Definition with_insecure_channel (target : string) (body : M unit) : M unit :=
  emit (GrpcChannelOpen target) ;;
  try_finally body (emit GrpcChannelClose).

Definition stub_SendTelemetryData (msg : SensorData) : M unit :=
  transport_call (GrpcSendTelemetryData msg).

(** The top level of the script; [fuel] bounds the rounds of the loop
    that are run. *)
Definition main (fuel : nat) : M unit :=
  with_insecure_channel "localhost:9090"
    (while_true fuel
       (SensorData <- generate_sensor_data ;;
        stub_SendTelemetryData SensorData ;;
        print (LineSent SensorData) ;;
        time_sleep (NInt 5))).

(** A round of the loop as it shows on the outside: the reading that
    [generate_sensor_data] returns at some cursor is sent, printed, and
    followed by a sleep of 5. *)
Definition is_round (o : oracle) (es : list effect) : Prop :=
  exists c msg,
    fst (fst (generate_sensor_data o c)) = Ok msg /\
    es = [ GrpcSendTelemetryData msg; Print (LineSent msg); Sleep (NInt 5) ].

(** The cursor after [i] rounds of the loop that started at [c]: a
    round draws [random()] three times and reads the clock once, and
    makes one call and one sleep. *)
Definition cycle_cursor (c : cursor) (i : nat) : cursor :=
  Cursor (n_randbelow c) (n_random c + 3 * i) (n_urandom c)
         (n_clock c + i) (n_call c + i) (n_sleep c + i).

(** What a round that starts at cursor [c] has to do when nothing
    raises: the reading that [generate_sensor_data] returns at [c] is
    sent, printed and followed by a sleep of 5. *)
Definition cycle_effects (o : oracle) (c : cursor) : list effect :=
  match fst (fst (generate_sensor_data o c)) with
  | Ok msg =>
      [ GrpcSendTelemetryData msg; Print (LineSent msg); Sleep (NInt 5) ]
  | _ => []
  end.

End SimulateSensorData.

(* ================================================================== *)
(** * Sample oracles *)
(* ================================================================== *)

Module Samples.
Import Py.

Definition sample_clock (i : nat) : datetime :=
  DateTime 2024 3 9 7 5 (Z.of_nat i mod 60) 1234.

(** A well-behaved outside: no transport call raises. *)
Definition calm : oracle :=
  Oracle (fun i n => (i mod n)%nat)
         (fun i => (Z.of_nat i * 1234567890123 + 77) mod grid)
         (fun i => (Z.of_nat i * 987654321987654321 + 12345) mod 2 ^ 128)
         sample_clock
         (fun _ => None)
         (fun _ => false).

(** The same outside with another draw of random bytes. *)
Definition calm' : oracle :=
  Oracle (randbelow calm) (random calm)
         (fun i => (Z.of_nat i * 987654321987654321 + 54321) mod 2 ^ 128)
         (wall_clock calm) (fault calm) (sigint calm).

(** The same outside, except that the sixth transport call raises. *)
Definition stormy : oracle :=
  Oracle (randbelow calm) (random calm) (urandom16 calm) (wall_clock calm)
         (fun i => if Nat.eqb i 5
                   then Some (Exn "OSError" "[Errno 32] Broken pipe")
                   else None)
         (sigint calm).

(** The same outside, except that the first transport call raises. *)
Definition unreachable : oracle :=
  Oracle (randbelow calm) (random calm) (urandom16 calm) (wall_clock calm)
         (fun i => if Nat.eqb i 0
                   then Some (Exn "ConnectionRefusedError"
                                  "[Errno 111] Connection refused")
                   else None)
         (sigint calm).

(** The calm outside, except that a keyboard interrupt arrives in the
    third sleep. *)
Definition interrupted : oracle :=
  Oracle (randbelow calm) (random calm) (urandom16 calm) (wall_clock calm)
         (fault calm)
         (fun i => Nat.eqb i 2).

End Samples.

(* ================================================================== *)
(** * Facts about the runtime fragment *)
(* ================================================================== *)

Import Py World.
#[local] Open Scope list_scope.
#[local] Open Scope string_scope.
#[local] Open Scope Z_scope.

(** ** Text *)

Lemma string_app_assoc (a b c : string) : (a ++ b) ++ c = a ++ (b ++ c).
Proof.
  induction a as [|x a IH]; simpl; [reflexivity | now rewrite IH].
Qed.

Lemma string_app_inv_head (p a b : string) : p ++ a = p ++ b -> a = b.
Proof.
  induction p as [|x p IH]; simpl; intros H; [exact H|].
  injection H as H. now apply IH.
Qed.

Lemma string_length_app (a b : string) :
  String.length (a ++ b) = (String.length a + String.length b)%nat.
Proof.
  induction a as [|x a IH]; simpl; [reflexivity | now rewrite IH].
Qed.

Lemma string_app_inv_tail (a b q : string) : a ++ q = b ++ q -> a = b.
Proof.
  revert b. induction a as [|x a IH]; intros [|y b] H; simpl in H.
  - reflexivity.
  - apply (f_equal String.length) in H. simpl in H.
    rewrite string_length_app in H. lia.
  - apply (f_equal String.length) in H. simpl in H.
    rewrite string_length_app in H. lia.
  - injection H as -> H. f_equal. now apply IH.
Qed.

(** ** The string codec of [json] *)

Lemma scanstring_escape_char (c : ascii) (t : string) :
  scanstring (escape_char c ++ t) =
  match scanstring t with
  | Some (u, rest) => Some (String c u, rest)
  | None => None
  end.
Proof.
  destruct c as [[] [] [] [] [] [] [] []]; reflexivity.
Qed.

Lemma scanstring_escape_chars (s rest : string) :
  scanstring (escape_chars s ++ String dquote rest) = Some (s, rest).
Proof.
  induction s as [|c s IH]; simpl.
  - reflexivity.
  - now rewrite string_app_assoc, scanstring_escape_char, IH.
Qed.

Lemma scan_once_string (s rest : string) :
  scan_once (encode_basestring_ascii s ++ rest) = Some (VStr s, rest).
Proof.
  unfold encode_basestring_ascii. cbn [append scan_once].
  change (N_of_ascii dquote =? 34)%N with true. cbv iota.
  rewrite string_app_assoc. cbn [append].
  now rewrite scanstring_escape_chars.
Qed.

(** ** The integer codec of [json] *)

Lemma scan_digits_string_of_uint (u : Decimal.uint) (rest : string) :
  starts_with_digit rest = false ->
  scan_digits (NilEmpty.string_of_uint u ++ rest) = (u, rest).
Proof.
  intros Hrest. induction u; simpl;
    try (cbn [digit_of_char N_of_ascii]; simpl; now rewrite IHu).
  destruct rest as [|c r]; [reflexivity|].
  simpl in Hrest. unfold scan_digits; fold scan_digits.
  assert (digit_of_char c = None) as ->; [|reflexivity].
  destruct c as [[] [] [] [] [] [] [] []]; try reflexivity; discriminate.
Qed.

Lemma nzhead_not_D0 (d d' : Decimal.uint) : Decimal.nzhead d <> Decimal.D0 d'.
Proof.
  induction d; simpl; try discriminate. exact IHd.
Qed.

Lemma to_uint_head (p : positive) :
  match Pos.to_uint p with
  | Decimal.Nil | Decimal.D0 _ => False
  | _ => True
  end.
Proof.
  assert (Hn : Decimal.unorm (Pos.to_uint p) = Pos.to_uint p).
  { rewrite <- (DecimalPos.Unsigned.to_of (Pos.to_uint p)).
    now rewrite DecimalPos.Unsigned.of_to. }
  pose proof (DecimalPos.Unsigned.to_uint_nonnil p) as Hnil.
  pose proof (DecimalPos.Unsigned.to_uint_nonzero p) as Hz.
  destruct (Pos.to_uint p) as [|u| | | | | | | | |]; try exact I.
  - now apply Hnil.
  - unfold Decimal.unorm in Hn. simpl in Hn.
    destruct (Decimal.nzhead u) eqn:E; try discriminate.
    + exfalso. injection Hn as <-. now apply Hz.
    + exfalso. now apply (nzhead_not_D0 u u0).
Qed.

Lemma scan_number_nonzero_head (neg : bool) (c : ascii) (r : string) :
  ((49 <=? N_of_ascii c) && (N_of_ascii c <=? 57))%N = true ->
  scan_number ((if neg then "-" else "") ++ String c r) =
  let (u, rest) := scan_digits (String c r) in
  if float_follows rest then None
  else Some (if neg then - Z.of_uint u else Z.of_uint u, rest).
Proof.
  destruct c as [[] [] [] [] [] [] [] []]; try discriminate; intros _;
    destruct neg; reflexivity.
Qed.

Lemma string_of_to_uint_head (p : positive) :
  exists c r, NilEmpty.string_of_uint (Pos.to_uint p) = String c r /\
    (((49 <=? N_of_ascii c) && (N_of_ascii c <=? 57))%N = true).
Proof.
  pose proof (to_uint_head p) as Hh.
  destruct (Pos.to_uint p); try contradiction; simpl; eauto.
Qed.

Lemma scan_number_pos (neg : bool) (p : positive) (rest : string) :
  starts_with_digit rest = false ->
  float_follows rest = false ->
  scan_number ((if neg then "-" else "") ++
               NilEmpty.string_of_uint (Pos.to_uint p) ++ rest) =
  Some (if neg then Z.neg p else Z.pos p, rest).
Proof.
  intros Hd Hf.
  assert (Hv : Z.of_uint (Pos.to_uint p) = Z.pos p).
  { unfold Z.of_uint. now rewrite DecimalPos.Unsigned.of_to. }
  pose proof (scan_digits_string_of_uint (Pos.to_uint p) rest Hd) as Hs.
  destruct (string_of_to_uint_head p) as (c & r & E & Hc).
  rewrite E in *. cbn [append] in *.
  rewrite (scan_number_nonzero_head neg c (r ++ rest) Hc), Hs, Hf, Hv.
  now destruct neg.
Qed.

Lemma scan_number_int_repr (n : Z) (rest : string) :
  starts_with_digit rest = false ->
  float_follows rest = false ->
  scan_number (int_repr n ++ rest) = Some (n, rest).
Proof.
  intros Hd Hf. unfold int_repr. destruct n as [|p|p]; simpl Z.to_int.
  - cbn. now rewrite Hf.
  - unfold NilZero.string_of_int, NilZero.string_of_uint.
    pose proof (to_uint_head p) as Hh.
    pose proof (scan_number_pos false p rest Hd Hf) as H. simpl in H.
    destruct (Pos.to_uint p); try contradiction; exact H.
  - unfold NilZero.string_of_int, NilZero.string_of_uint.
    pose proof (to_uint_head p) as Hh.
    pose proof (scan_number_pos true p rest Hd Hf) as H. simpl in H.
    destruct (Pos.to_uint p); try contradiction; exact H.
Qed.

Lemma int_repr_head (n : Z) :
  exists c r, int_repr n = String c r /\ (N_of_ascii c =? 34)%N = false.
Proof.
  unfold int_repr. destruct n as [|p|p]; simpl Z.to_int.
  - now exists "0"%char, "".
  - unfold NilZero.string_of_int, NilZero.string_of_uint.
    pose proof (to_uint_head p) as Hh.
    destruct (Pos.to_uint p); try contradiction; simpl; eauto.
  - unfold NilZero.string_of_int. simpl. eauto.
Qed.

Lemma scan_once_int (n : Z) (rest : string) :
  starts_with_digit rest = false ->
  float_follows rest = false ->
  scan_once (int_repr n ++ rest) = Some (VInt n, rest).
Proof.
  intros Hd Hf.
  pose proof (scan_number_int_repr n rest Hd Hf) as H.
  destruct (int_repr_head n) as (c & r & E & Hc).
  rewrite E in *. cbn [append scan_once]. rewrite Hc.
  cbn [append] in H. now rewrite H.
Qed.

Lemma scan_once_dumps_value (v : value) (rest : string) :
  starts_with_digit rest = false ->
  float_follows rest = false ->
  scan_once (dumps_value v ++ rest) = Some (v, rest).
Proof.
  destruct v; simpl; intros.
  - apply scan_once_string.
  - now apply scan_once_int.
Qed.

(** ** Objects *)

Lemma int_repr_head_not_ws (n : Z) :
  exists c r, int_repr n = String c r /\ is_ws c = false.
Proof.
  unfold int_repr. destruct n as [|p|p]; simpl Z.to_int.
  - now exists "0"%char, "".
  - unfold NilZero.string_of_int, NilZero.string_of_uint.
    pose proof (to_uint_head p) as Hh.
    destruct (Pos.to_uint p); try contradiction; simpl; eauto.
  - unfold NilZero.string_of_int. simpl. eauto.
Qed.

Lemma skip_ws_dumps_value (v : value) (t : string) :
  skip_ws (dumps_value v ++ t) = dumps_value v ++ t.
Proof.
  destruct v as [s|n]; simpl.
  - reflexivity.
  - destruct (int_repr_head_not_ws n) as (c & r & E & Hc).
    rewrite E. simpl. now rewrite Hc.
Qed.

Lemma dumps_items_cons (kv : string * value) (d : dict) (t : string) :
  dumps_items (kv :: d) ++ t =
  dumps_item kv ++
  match d with
  | [] => t
  | _ :: _ => ", " ++ dumps_items d ++ t
  end.
Proof.
  destruct d as [|kv' d]; [reflexivity|].
  cbn [dumps_items]. now rewrite !string_app_assoc.
Qed.

Lemma dumps_item_open (k : string) (v : value) (t : string) :
  dumps_item (k, v) ++ t =
  String dquote (escape_chars k ++ String dquote (": " ++ dumps_value v ++ t)).
Proof.
  unfold dumps_item, encode_basestring_ascii. cbn [fst snd append].
  now rewrite !string_app_assoc.
Qed.

Lemma skip_ws_nonws (c : ascii) (r : string) :
  is_ws c = false -> skip_ws (String c r) = String c r.
Proof. intros H. cbn [skip_ws]. now rewrite H. Qed.

Lemma skip_ws_space (r : string) : skip_ws (String " " r) = skip_ws r.
Proof. reflexivity. Qed.

(** One round of the object loop on an encoded item followed by [t]. *)
Lemma object_pairs_item (fuel : nat) (k : string) (v : value) (t : string) :
  starts_with_digit t = false ->
  float_follows t = false ->
  object_pairs (S fuel)
    (escape_chars k ++
     String dquote (String ":" (String " " (dumps_value v ++ t)))) =
  match skip_ws t with
  | String c2 s4 =>
      if (N_of_ascii c2 =? 125)%N then Some ([(k, v)], s4)
      else if (N_of_ascii c2 =? 44)%N then
        match skip_ws s4 with
        | String q s5 =>
            if (N_of_ascii q =? 34)%N then
              match object_pairs fuel s5 with
              | Some (ps, rest) => Some ((k, v) :: ps, rest)
              | None => None
              end
            else None
        | EmptyString => None
        end
      else None
  | EmptyString => None
  end.
Proof.
  intros Hd Hf. cbn [object_pairs]. rewrite scanstring_escape_chars.
  rewrite (skip_ws_nonws ":") by reflexivity.
  change (N_of_ascii ":" =? 58)%N with true. cbv iota.
  rewrite skip_ws_space, skip_ws_dumps_value.
  rewrite scan_once_dumps_value by assumption. reflexivity.
Qed.

Lemma object_pairs_dumps_items (d : dict) :
  forall (kv : string * value) (fuel : nat) (rest : string),
    (List.length (kv :: d) <= fuel)%nat ->
    exists x,
      dumps_items (kv :: d) ++ String "}" rest = String dquote x /\
      object_pairs fuel x = Some (kv :: d, rest).
Proof.
  induction d as [|kv' d IH]; intros [k v] fuel rest Hfuel;
    (destruct fuel as [|fuel]; [simpl in Hfuel; lia|]);
    eexists; (split;
      [rewrite dumps_items_cons, dumps_item_open; cbv iota; cbn [append];
       reflexivity|]).
  - now rewrite object_pairs_item.
  - destruct (IH kv' fuel rest) as (x & E & Hx); [simpl in *; lia|].
    rewrite E, object_pairs_item by reflexivity.
    rewrite (skip_ws_nonws ",") by reflexivity.
    change (N_of_ascii "," =? 125)%N with false.
    change (N_of_ascii "," =? 44)%N with true. cbv iota.
    rewrite skip_ws_space, (skip_ws_nonws dquote) by reflexivity.
    change (N_of_ascii dquote =? 34)%N with true. cbv iota.
    now rewrite Hx.
Qed.

Lemma dumps_items_length (d : dict) :
  (List.length d <= String.length (dumps_items d))%nat.
Proof.
  induction d as [|[k v] d IH]; [simpl; lia|].
  pose proof (dumps_items_cons (k, v) d "") as E.
  assert (Hnil : forall s, s ++ "" = s).
  { induction s; simpl; congruence. }
  rewrite Hnil in E. rewrite E, dumps_item_open.
  destruct d as [|kv' d].
  - simpl. lia.
  - rewrite Hnil. cbn [List.length String.length].
    rewrite !string_length_app. cbn [String.length].
    rewrite !string_length_app. cbn [String.length].
    simpl List.length in IH. lia.
Qed.

Lemma dict_set_fresh (k : string) (v : value) (d : dict) :
  ~ In k (dict_keys d) -> dict_set k v d = (d ++ [(k, v)])%list.
Proof.
  induction d as [|[k' v'] d IH]; simpl; intros Hk; [reflexivity|].
  destruct (String.eqb_spec k k') as [->|_].
  - exfalso. apply Hk. now left.
  - rewrite IH; [reflexivity|]. intros H. apply Hk. now right.
Qed.

Lemma dict_of_pairs_acc (ps acc : dict) :
  NoDup (dict_keys (acc ++ ps)%list) ->
  fold_left (fun d kv => dict_set (fst kv) (snd kv) d) ps acc = (acc ++ ps)%list.
Proof.
  revert acc. induction ps as [|[k v] ps IH]; intros acc Hnd; simpl.
  - now rewrite app_nil_r.
  - rewrite dict_set_fresh.
    + rewrite IH; rewrite <- app_assoc; [reflexivity | exact Hnd].
    + unfold dict_keys in *. rewrite map_app in Hnd. simpl in Hnd.
      apply NoDup_remove_2 in Hnd. intros H. apply Hnd.
      apply in_or_app. now left.
Qed.

Lemma dict_of_pairs_nodup (d : dict) :
  NoDup (dict_keys d) -> dict_of_pairs d = d.
Proof.
  intros H. unfold dict_of_pairs. now rewrite dict_of_pairs_acc.
Qed.

(** Decoding what [json.dumps] wrote returns the dictionary that was
    written. *)
Lemma json_loads_dumps (d : dict) :
  NoDup (dict_keys d) -> json_loads (json_dumps d) = Some d.
Proof.
  intros Hnd. unfold json_dumps, json_loads. cbn [append].
  rewrite (skip_ws_nonws "{") by reflexivity.
  change (N_of_ascii "{" =? 123)%N with true. cbv iota.
  destruct d as [|kv d].
  - reflexivity.
  - destruct (object_pairs_dumps_items d kv
                (String.length (String "{" (dumps_items (kv :: d) ++ "}"))) "")
      as (x & E & Hx).
    + pose proof (dumps_items_length (kv :: d)) as L.
      cbn [String.length]. rewrite string_length_app. lia.
    + unfold json_object. rewrite E.
      rewrite (skip_ws_nonws dquote) by reflexivity.
      change (N_of_ascii dquote =? 125)%N with false.
      change (N_of_ascii dquote =? 34)%N with true. cbv iota.
      rewrite <- E, Hx. cbn [skip_ws]. now rewrite dict_of_pairs_nodup.
Qed.

(** ** Rounding and [random.uniform] *)

Lemma multiple_le_neighbour (P q r k res : Z) :
  0 < P -> 0 <= r < P -> q * P + r <= k * P ->
  res = q * P \/ (0 < r /\ res = (q + 1) * P) ->
  res <= k * P.
Proof.
  intros HP Hr Hle Hres.
  assert (q <= k) by nia.
  destruct Hres as [-> | [Hr0 ->]]; [nia|].
  assert (q < k) by nia. nia.
Qed.

Lemma multiple_ge_floor (P q r k : Z) :
  0 < P -> 0 <= r < P -> k * P <= q * P + r -> k * P <= q * P.
Proof.
  intros HP Hr Hle. assert (k <= q) by nia. nia.
Qed.

Section Round53.

Variable m : Z.
Hypothesis m_nonneg : 0 <= m.

Let s := Z.log2 m + 1 - 53.
Let q := Z.shiftr m s.
Let r := m - Z.shiftl q s.

(** Above 53 bits the rounded number is one of the two neighbours of
    [m] among the multiples of [2^s]. *)
Lemma round53_nonneg_cases :
  0 < s ->
  0 <= r < 2 ^ s /\ m = q * 2 ^ s + r /\ 2 ^ 52 <= q /\
  (round53_nonneg m = q * 2 ^ s \/
   (0 < r /\ round53_nonneg m = (q + 1) * 2 ^ s)).
Proof.
  intros Hs.
  assert (Hp : 0 < 2 ^ s) by (apply Z.pow_pos_nonneg; lia).
  assert (Hq : q = m / 2 ^ s) by (apply Z.shiftr_div_pow2; lia).
  assert (Hr : r = m mod 2 ^ s).
  { unfold r. rewrite Z.shiftl_mul_pow2 by lia. rewrite Hq.
    rewrite Z.mod_eq by lia. lia. }
  assert (Hm : 0 < m).
  { destruct (Z.eq_dec m 0) as [E|]; [|lia].
    unfold s in Hs. rewrite E in Hs. simpl in Hs. lia. }
  pose proof (Z.mod_pos_bound m (2 ^ s) Hp) as Hb.
  pose proof (Z.div_mod m (2 ^ s) ltac:(lia)) as Hdm.
  pose proof (Z.log2_spec m Hm) as [Hlo _].
  assert (Hlog : Z.log2 m = 52 + s) by (unfold s; lia).
  assert (H52 : 2 ^ 52 <= q).
  { rewrite Hq. apply Z.div_le_lower_bound; [lia|].
    rewrite Hlog, Z.pow_add_r in Hlo by lia. lia. }
  assert (Hhalf : 0 < Z.shiftl 1 (s - 1)).
  { rewrite Z.shiftl_mul_pow2 by lia.
    assert (0 < 2 ^ (s - 1)) by (apply Z.pow_pos_nonneg; lia). lia. }
  repeat split; try lia.
  unfold round53_nonneg. fold s. fold q. fold r.
  destruct (Z.leb_spec s 0); [lia|].
  set (half := Z.shiftl 1 (s - 1)) in *.
  rewrite !Z.shiftl_mul_pow2 by lia.
  destruct (Z.ltb_spec r half); [now left|].
  destruct (Z.ltb_spec half r); [right; split; [lia|reflexivity]|].
  destruct (Z.even q); [now left | right; split; [lia|reflexivity]].
Qed.

Lemma round53_nonneg_small : s <= 0 -> round53_nonneg m = m.
Proof.
  intros Hs. unfold round53_nonneg. fold s.
  destruct (Z.leb_spec s 0); [reflexivity | lia].
Qed.

Lemma is_binary64_divide (b : Z) :
  0 < s -> m <= b -> is_binary64 b = true -> (2 ^ s | b).
Proof.
  intros Hs Hle Hb. unfold is_binary64 in Hb.
  assert (Hmono : Z.log2 m <= Z.log2 b) by (apply Z.log2_le_mono; lia).
  apply orb_true_iff in Hb as [Hb|Hb].
  - apply Z.ltb_lt in Hb. unfold s in Hs. lia.
  - apply Z.eqb_eq in Hb.
    assert (0 < 2 ^ (Z.log2 b - 52)) by (apply Z.pow_pos_nonneg; unfold s in *; lia).
    apply Z.mod_divide in Hb; [|lia].
    apply Z.divide_trans with (2 ^ (Z.log2 b - 52)); [|exact Hb].
    exists (2 ^ (Z.log2 b - 52 - s)).
    rewrite <- Z.pow_add_r by (unfold s in *; lia). f_equal. lia.
Qed.

(** Rounding does not cross a binary64 number above [m]. *)
Lemma round53_nonneg_le (b : Z) :
  m <= b -> is_binary64 b = true -> round53_nonneg m <= b.
Proof.
  intros Hle Hb. destruct (Z.leb_spec s 0) as [Hs|Hs].
  - now rewrite round53_nonneg_small.
  - destruct (round53_nonneg_cases Hs) as (Hr & Hm & _ & Hc).
    destruct (is_binary64_divide b Hs Hle Hb) as [k Hk].
    assert (Hp : 0 < 2 ^ s) by (apply Z.pow_pos_nonneg; lia).
    rewrite Hk. apply (multiple_le_neighbour (2 ^ s) q r); auto; lia.
Qed.

(** Rounding does not cross a binary64 number below [m]. *)
Lemma round53_nonneg_ge (a : Z) :
  0 <= a <= m -> is_binary64 a = true -> a <= round53_nonneg m.
Proof.
  intros Hle Ha. destruct (Z.leb_spec s 0) as [Hs|Hs].
  - rewrite round53_nonneg_small; lia.
  - destruct (round53_nonneg_cases Hs) as (Hr & Hm & H52 & Hc).
    assert (Hp : 0 < 2 ^ s) by (apply Z.pow_pos_nonneg; lia).
    assert (Hq : a <= q * 2 ^ s).
    { destruct (Z.eq_dec a 0) as [->|Hnz].
      { apply Z.mul_nonneg_nonneg; lia. }
      assert (Hmono : Z.log2 a <= Z.log2 m) by (apply Z.log2_le_mono; lia).
      destruct (Z.eq_dec (Z.log2 a) (Z.log2 m)) as [E|NE].
      - unfold is_binary64 in Ha. apply orb_true_iff in Ha as [Ha|Ha].
        + apply Z.ltb_lt in Ha. unfold s in Hs. lia.
        + apply Z.eqb_eq in Ha. rewrite E in Ha.
          replace (Z.log2 m - 52) with s in Ha by (unfold s; lia).
          apply Z.mod_divide in Ha; [|lia]. destruct Ha as [k Hk].
          rewrite Hk. apply (multiple_ge_floor (2 ^ s) q r); auto; lia.
      - pose proof (Z.log2_spec a ltac:(lia)) as [_ Hhi].
        assert (2 ^ Z.succ (Z.log2 a) <= 2 ^ (52 + s)).
        { apply Z.pow_le_mono_r; [lia | unfold s; lia]. }
        rewrite Z.pow_add_r in * by lia.
        assert (2 ^ 52 * 2 ^ s <= q * 2 ^ s)
          by (apply Z.mul_le_mono_nonneg_r; lia).
        lia. }
    destruct Hc as [-> | [_ ->]]; [lia|].
    rewrite Z.mul_add_distr_r. lia.
Qed.

End Round53.

Lemma round53_between (a b m : Z) :
  0 <= a <= m -> m <= b ->
  is_binary64 a = true -> is_binary64 b = true ->
  a <= round53 m <= b.
Proof.
  intros Ha Hb Ia Ib. unfold round53.
  destruct (Z.ltb_spec m 0); [lia|].
  split; [apply round53_nonneg_ge | apply round53_nonneg_le]; auto; lia.
Qed.

(** [random.uniform(a, b)] stays between [a] and [b], both included. *)
Lemma uniform_steps_bounds (a b k : Z) :
  0 <= a <= b ->
  is_binary64 (a * grid) = true ->
  is_binary64 (b * grid) = true ->
  is_binary64 ((b - a) * grid) = true ->
  0 <= k < grid ->
  a * grid <= steps (uniform a b k) <= b * grid.
Proof.
  intros Hab Ia Ib Iba Hk.
  unfold uniform, float_add_int, float_mul_int. cbn [steps].
  assert (H1 : 0 <= round53 ((b - a) * k) <= (b - a) * grid).
  { apply round53_between; try assumption; try reflexivity; nia. }
  apply round53_between; try assumption; nia.
Qed.

Lemma uniform_bounds (a b k : Z) :
  0 <= a <= b ->
  is_binary64 (a * grid) = true ->
  is_binary64 (b * grid) = true ->
  is_binary64 ((b - a) * grid) = true ->
  0 <= k < grid ->
  (inject_Z a <= float_value (uniform a b k) <= inject_Z b)%Q.
Proof.
  intros Hab Ia Ib Iba Hk.
  pose proof (uniform_steps_bounds a b k Hab Ia Ib Iba Hk) as H.
  unfold Qle, float_value, inject_Z. cbn [Qnum Qden].
  change (Z.pos (Z.to_pos grid)) with grid. lia.
Qed.

(** ** Timestamps *)

Lemma Z_range_forallb (P : Z -> bool) (lo hi : Z) :
  forallb P (map (fun i => lo + Z.of_nat i) (seq 0 (Z.to_nat (hi - lo)))) = true ->
  forall z, lo <= z < hi -> P z = true.
Proof.
  intros H z Hz. rewrite forallb_forall in H. apply H.
  apply in_map_iff. exists (Z.to_nat (z - lo)). split; [lia|].
  apply in_seq. lia.
Qed.

Lemma has_shape_app (p1 p2 : list shape) (s1 s2 : string) :
  has_shape p1 s1 = true -> has_shape p2 s2 = true ->
  has_shape (p1 ++ p2)%list (s1 ++ s2) = true.
Proof.
  revert s1. induction p1 as [|p p1 IH]; intros [|c s1] H1 H2;
    simpl in *; try discriminate; auto.
  apply andb_true_iff in H1 as [Hc H1]. rewrite Hc. simpl. now apply IH.
Qed.

Lemma fmt_0d_two_digits (n : Z) :
  0 <= n <= 99 -> has_shape [Digit; Digit] (fmt_0d 2 n) = true.
Proof.
  intros H.
  apply (Z_range_forallb (fun z => has_shape [Digit; Digit] (fmt_0d 2 z)) 0 100);
    [vm_compute; reflexivity | lia].
Qed.

Lemma int_repr_four_digits (n : Z) :
  1000 <= n <= 9999 ->
  has_shape [Digit; Digit; Digit; Digit] (int_repr n) = true.
Proof.
  intros H.
  apply (Z_range_forallb
           (fun z => has_shape [Digit; Digit; Digit; Digit] (int_repr z))
           1000 10000);
    [vm_compute; reflexivity | lia].
Qed.

Lemma strftime_shape (t : datetime) :
  valid_datetime t ->
  has_shape shape_Ymd_HMS (strftime_Ymd_HMS t) = true.
Proof.
  intros (Hy & Hmo & Hd & Hh & Hmi & Hs & _).
  unfold strftime_Ymd_HMS.
  change shape_Ymd_HMS with
    ([Digit; Digit; Digit; Digit] ++ [Lit "-"%char] ++ [Digit; Digit] ++
     [Lit "-"%char] ++ [Digit; Digit] ++ [Lit " "%char] ++ [Digit; Digit] ++
     [Lit ":"%char] ++ [Digit; Digit] ++ [Lit ":"%char] ++ [Digit; Digit])%list.
  repeat (apply has_shape_app;
          [first [ apply int_repr_four_digits; lia
                 | apply fmt_0d_two_digits; lia
                 | reflexivity ] |]).
  apply fmt_0d_two_digits; lia.
Qed.

(* ================================================================== *)
(** * Facts about the monad *)
(* ================================================================== *)

Lemma bind_unfold {A B} (m : M A) (f : A -> M B) (o : oracle) (c : cursor) :
  bind m f o c =
  match m o c with
  | (Ok a, c1, out1) =>
      match f a o c1 with (r, c2, out2) => (r, c2, (out1 ++ out2)%list) end
  | (Raise e, c1, out1) => (Raise e, c1, out1)
  | (Running, c1, out1) => (Running, c1, out1)
  | (Interrupted, c1, out1) => (Interrupted, c1, out1)
  end.
Proof. reflexivity. Qed.

Lemma bind_ok {A B} (m : M A) (f : A -> M B) o c a c1 out1 :
  m o c = (Ok a, c1, out1) ->
  bind m f o c =
  match f a o c1 with (r, c2, out2) => (r, c2, (out1 ++ out2)%list) end.
Proof. intros H. now rewrite bind_unfold, H. Qed.

Section Emits.

Variable P : effect -> Prop.

Lemma emits_ret {A} (a : A) : emits P (ret a).
Proof. intros o c. constructor. Qed.

Lemma emits_bind {A B} (m : M A) (f : A -> M B) :
  emits P m -> (forall a, emits P (f a)) -> emits P (bind m f).
Proof.
  intros Hm Hf o c. rewrite bind_unfold.
  specialize (Hm o c). destruct (m o c) as [[[a|e| |] c1] out1]; simpl in *; auto.
  specialize (Hf a o c1). destruct (f a o c1) as [[r c2] out2]; simpl in *.
  apply Forall_app. now split.
Qed.

Lemma emits_emit (e : effect) : P e -> emits P (emit e).
Proof. intros H o c. simpl. now repeat constructor. Qed.

Lemma emits_transport_call (e : effect) : P e -> emits P (transport_call e).
Proof.
  intros H o c. unfold transport_call.
  destruct (fault o (n_call c)); simpl; now repeat constructor.
Qed.

Lemma emits_time_sleep (n : number) : P (Sleep n) -> emits P (time_sleep n).
Proof.
  intros H o c. unfold time_sleep.
  destruct (sigint o (n_sleep c)); simpl; now repeat constructor.
Qed.

Lemma emits_random_choice {A} (xs : list A) : emits P (random_choice xs).
Proof.
  intros o c. unfold random_choice.
  destruct (nth_error xs _); simpl; constructor.
Qed.

Lemma emits_for_in {A} (xs : list A) (body : A -> M unit) :
  (forall x, emits P (body x)) -> emits P (for_in xs body).
Proof.
  intros Hb. induction xs as [|x xs IH]; simpl.
  - apply emits_ret.
  - apply emits_bind; auto.
Qed.

Lemma emits_try_except {A} (body : M A) (handler : exn -> M A) :
  emits P body -> (forall e, emits P (handler e)) ->
  emits P (try_except body handler).
Proof.
  intros Hb Hh o c. unfold try_except.
  specialize (Hb o c). destruct (body o c) as [[[a|e| |] c1] out1]; simpl in *; auto.
  specialize (Hh e o c1). destruct (handler e o c1) as [[r c2] out2]; simpl in *.
  apply Forall_app. now split.
Qed.

Lemma emits_try_finally {A} (body : M A) (cleanup : M unit) :
  emits P body -> emits P cleanup -> emits P (try_finally body cleanup).
Proof.
  intros Hb Hc o c. unfold try_finally.
  specialize (Hb o c). destruct (body o c) as [[[a|e| |] c1] out1]; simpl in *; auto;
    specialize (Hc o c1); destruct (cleanup o c1) as [[[[]|e'| |] c2] out2];
    simpl in *; apply Forall_app; now split.
Qed.

End Emits.

(** Walks down a computation with the lemmas above; [leaf] closes the
    side condition on each single effect, [sub] the sub-computations
    that have a lemma of their own. *)
Ltac emits_walk leaf sub :=
  repeat first
    [ apply emits_for_in; intros ?
    | sub
    | apply emits_transport_call; leaf
    | apply emits_emit; leaf
    | apply emits_time_sleep; leaf
    | apply emits_random_choice
    | apply emits_ret
    | apply emits_bind; [|intros ?] ].

Lemma halts_ret {A} (a : A) : halts (ret a).
Proof. intros o c. discriminate. Qed.

Lemma halts_bind {A B} (m : M A) (f : A -> M B) :
  halts m -> (forall a, halts (f a)) -> halts (bind m f).
Proof.
  intros Hm Hf o c. rewrite bind_unfold.
  specialize (Hm o c). destruct (m o c) as [[[a|e| |] c1] out1]; simpl in *;
    try congruence.
  specialize (Hf a o c1). now destruct (f a o c1) as [[r c2] out2].
Qed.

Lemma halts_emit (e : effect) : halts (emit e).
Proof. intros o c. discriminate. Qed.

Lemma halts_time_sleep (n : number) : halts (time_sleep n).
Proof.
  intros o c. unfold time_sleep. destruct (sigint o (n_sleep c)); discriminate.
Qed.

Lemma halts_transport_call (e : effect) : halts (transport_call e).
Proof.
  intros o c. unfold transport_call.
  destruct (fault o (n_call c)); discriminate.
Qed.

Lemma halts_random_choice {A} (xs : list A) : halts (random_choice xs).
Proof.
  intros o c. unfold random_choice. destruct (nth_error xs _); discriminate.
Qed.

Lemma halts_for_in {A} (xs : list A) (body : A -> M unit) :
  (forall x, halts (body x)) -> halts (for_in xs body).
Proof.
  intros Hb. induction xs as [|x xs IH]; simpl.
  - apply halts_ret.
  - apply halts_bind; auto.
Qed.

(** A loop whose rounds all return, with effects of the shape [R],
    returns, and its effects are those of the rounds in order. *)
Lemma for_in_rounds {A} (xs : list A) (body : A -> M unit)
    (R : list effect -> Prop) (o : oracle) :
  (forall x c, exists c' es, body x o c = (Ok tt, c', es) /\ R es) ->
  forall c, exists c' rounds,
    for_in xs body o c = (Ok tt, c', List.concat rounds) /\
    List.length rounds = List.length xs /\ Forall R rounds.
Proof.
  intros Hb. induction xs as [|x xs IH]; intros c.
  - exists c, []. repeat split. constructor.
  - destruct (Hb x c) as (c1 & es & E & HR).
    destruct (IH c1) as (c2 & rounds & E2 & L & F).
    exists c2, (es :: rounds). cbn [for_in].
    rewrite (bind_ok _ _ _ _ _ _ _ E), E2.
    repeat split; simpl; auto.
Qed.

Lemma random_choice_ok {A} (xs : list A) (o : oracle) (c : cursor) :
  oracle_ok o -> xs <> [] ->
  exists x c', In x xs /\ random_choice xs o c = (Ok x, c', []).
Proof.
  intros Hok Hne. unfold random_choice.
  assert (Hlt : (randbelow o (n_randbelow c) (List.length xs) < List.length xs)%nat).
  { apply (randbelow_lt o Hok). destruct xs; [congruence | simpl; lia]. }
  destruct (nth_error xs _) as [x|] eqn:E.
  - exists x. eexists. split; [eapply nth_error_In; eauto | reflexivity].
  - apply nth_error_None in E. lia.
Qed.

(* ================================================================== *)
(** * [inventory_events.py]: the event and its publication *)
(* ================================================================== *)

Import InventoryEvents.

Lemma calm_ok : oracle_ok Samples.calm.
Proof.
  constructor; cbn [Samples.calm randbelow random urandom16 wall_clock].
  - intros i n Hn. apply Nat.mod_upper_bound. lia.
  - intros i. apply Z.mod_pos_bound. reflexivity.
  - intros i. apply Z.mod_pos_bound. reflexivity.
  - intros i. unfold valid_datetime, Samples.sample_clock.
    cbn [year month day hour minute second microsecond].
    pose proof (Z.mod_pos_bound (Z.of_nat i) 60 ltac:(lia)). lia.
Qed.

Lemma calm_no_fault : no_fault Samples.calm.
Proof. intros i. reflexivity. Qed.

(** What one call of [publish_inventory_event] does. *)
Lemma publish_inventory_event_run
    (client : Client) (store item_id : string) (quantity_change : Z)
    (o : oracle) (c : cursor) :
  publish_inventory_event client store item_id quantity_change o c =
  let topic := "store/" ++ store ++ "/inventory" in
  let payload := constructed_payload store item_id quantity_change o c in
  match fault o (n_call c) with
  | Some e =>
      (Raise e,
       Cursor (n_randbelow c) (n_random c) (S (n_urandom c)) (S (n_clock c))
              (S (n_call c)) (n_sleep c),
       [MqttPublish topic (json_dumps payload)])
  | None =>
      (if sigint o (n_sleep c) then Interrupted else Ok tt,
       Cursor (n_randbelow c) (S (n_random c)) (S (n_urandom c)) (S (n_clock c))
              (S (n_call c)) (S (n_sleep c)),
       [MqttPublish topic (json_dumps payload);
        Print (LinePublished topic payload);
        Sleep (NFloat (uniform 10 20 (random o (n_random c))))])
  end.
Proof.
  unfold publish_inventory_event, constructed_payload, event_payload,
    datetime_now, read_clock, uuid_uuid4, client_publish, transport_call,
    print, time_sleep, emit, random_uniform, bind.
  cbn [n_randbelow n_random n_urandom n_clock n_call n_sleep].
  destruct (fault o (n_call c)); [reflexivity|].
  cbn [n_randbelow n_random n_urandom n_clock n_call n_sleep].
  destruct (sigint o (n_sleep c)); reflexivity.
Qed.

Lemma publish_inventory_event_head
    (client : Client) (store item_id : string) (quantity_change : Z)
    (o : oracle) (c : cursor) :
  exists rest,
    snd (publish_inventory_event client store item_id quantity_change o c) =
    MqttPublish ("store/" ++ store ++ "/inventory")
      (json_dumps (constructed_payload store item_id quantity_change o c))
    :: rest.
Proof.
  rewrite publish_inventory_event_run. cbv zeta.
  destruct (fault o (n_call c)); eexists; reflexivity.
Qed.

(** Closes a goal that names the first effect of a call. *)
Ltac first_effect_is_publish :=
  match goal with
  | |- hd_error (snd (publish_inventory_event ?cl ?s ?i ?q ?o ?c)) = _ =>
      destruct (publish_inventory_event_head cl s i q o c) as [? ->];
      reflexivity
  end.

Lemma event_payload_keys store item_id quantity_change timestamp event_id :
  dict_keys (event_payload store item_id quantity_change timestamp event_id) =
  ["event_id"; "item_id"; "store_id"; "quantity_change"; "event_type";
   "timestamp"].
Proof. reflexivity. Qed.

Lemma event_payload_nodup store item_id quantity_change timestamp event_id :
  NoDup (dict_keys
           (event_payload store item_id quantity_change timestamp event_id)).
Proof.
  rewrite event_payload_keys.
  repeat (constructor; [simpl; intuition discriminate|]). constructor.
Qed.

Lemma event_payload_roundtrip store item_id quantity_change timestamp event_id :
  let p := event_payload store item_id quantity_change timestamp event_id in
  json_loads (json_dumps p) = Some p.
Proof. apply json_loads_dumps, event_payload_nodup. Qed.

Lemma event_type_cases (store item_id : string) (quantity_change : Z)
    (timestamp event_id : string) :
  dict_get "event_type"
    (event_payload store item_id quantity_change timestamp event_id) =
  Some (VStr (if quantity_change <? 0 then "sales" else "restock")).
Proof. reflexivity. Qed.

(** C1.  For a quantity change among -2, -1, 1 and 2, the dictionary
    that [publish_inventory_event] publishes has the event type
    "restock" exactly when the change is positive, and "sales"
    otherwise. *)
Theorem event_type_restock_iff_positive
    (client : Client) (store item_id : string) (quantity_change : Z)
    (o : oracle) (c : cursor) :
  In quantity_change [-2; -1; 1; 2] ->
  let p := constructed_payload store item_id quantity_change o c in
  hd_error
    (snd (publish_inventory_event client store item_id quantity_change o c)) =
  Some (MqttPublish ("store/" ++ store ++ "/inventory") (json_dumps p)) /\
  (dict_get "event_type" p = Some (VStr "restock") <-> 0 < quantity_change) /\
  (~ 0 < quantity_change -> dict_get "event_type" p = Some (VStr "sales")).
Proof.
  intros Hq p. split.
  - first_effect_is_publish.
  - unfold p, constructed_payload. rewrite event_type_cases.
    simpl in Hq. destruct Hq as [<-|[<-|[<-|[<-|[]]]]]; simpl;
      (split; [split; [intros H; (discriminate || lia) | intros H; (lia || reflexivity)]
              | intros H; (lia || reflexivity)]).
Qed.

Lemma event_type_restock_iff_positive_witness :
  In (-1) [-2; -1; 1; 2] /\
  let p := constructed_payload "paris" "HAT-004" (-1) Samples.calm cursor0 in
  hd_error
    (snd (publish_inventory_event MqttClient "paris" "HAT-004" (-1)
            Samples.calm cursor0)) =
  Some (MqttPublish ("store/" ++ "paris" ++ "/inventory") (json_dumps p)) /\
  (dict_get "event_type" p = Some (VStr "restock") <-> 0 < -1) /\
  (~ 0 < -1 -> dict_get "event_type" p = Some (VStr "sales")).
Proof.
  split.
  - simpl. auto.
  - apply (event_type_restock_iff_positive MqttClient "paris" "HAT-004" (-1)
             Samples.calm cursor0).
    simpl. auto.
Defined.

(** C9.  A quantity change that is not negative, zero included, is
    published with the event type "restock": the function tests
    [quantity_change < 0] and nothing else. *)
Theorem nonnegative_change_is_restock
    (client : Client) (store item_id : string) (quantity_change : Z)
    (o : oracle) (c : cursor) :
  0 <= quantity_change ->
  let p := constructed_payload store item_id quantity_change o c in
  hd_error
    (snd (publish_inventory_event client store item_id quantity_change o c)) =
  Some (MqttPublish ("store/" ++ store ++ "/inventory") (json_dumps p)) /\
  dict_get "event_type" p = Some (VStr "restock") /\
  dict_get "quantity_change" p = Some (VInt quantity_change).
Proof.
  intros Hq p. split.
  - first_effect_is_publish.
  - unfold p, constructed_payload. rewrite event_type_cases.
    destruct (Z.ltb_spec quantity_change 0); [lia|]. split; reflexivity.
Qed.

Lemma nonnegative_change_is_restock_witness :
  0 <= 0 /\
  let p := constructed_payload "berlin" "SCARF-005" 0 Samples.calm cursor0 in
  hd_error
    (snd (publish_inventory_event MqttClient "berlin" "SCARF-005" 0
            Samples.calm cursor0)) =
  Some (MqttPublish ("store/" ++ "berlin" ++ "/inventory") (json_dumps p)) /\
  dict_get "event_type" p = Some (VStr "restock") /\
  dict_get "quantity_change" p = Some (VInt 0).
Proof.
  split.
  - lia.
  - apply (nonnegative_change_is_restock MqttClient "berlin" "SCARF-005" 0
             Samples.calm cursor0).
    lia.
Defined.

(** C8.  The dictionary that [publish_inventory_event] builds and
    publishes comes back unchanged from [json.loads (json.dumps ...)]:
    the same six keys in the same order with the same values. *)
Theorem payload_json_roundtrip
    (client : Client) (store item_id : string) (quantity_change : Z)
    (o : oracle) (c : cursor) :
  let p := constructed_payload store item_id quantity_change o c in
  hd_error
    (snd (publish_inventory_event client store item_id quantity_change o c)) =
  Some (MqttPublish ("store/" ++ store ++ "/inventory") (json_dumps p)) /\
  json_loads (json_dumps p) = Some p.
Proof.
  intros p. split.
  - first_effect_is_publish.
  - apply event_payload_roundtrip.
Qed.

Lemma constructed_payload_publish (store item_id : string)
    (quantity_change : Z) (o : oracle) (c : cursor) :
  is_inventory_publish
    (MqttPublish ("store/" ++ store ++ "/inventory")
       (json_dumps (constructed_payload store item_id quantity_change o c))).
Proof.
  exists store, (constructed_payload store item_id quantity_change o c).
  repeat split. apply event_payload_roundtrip.
Qed.

Lemma emits_publish_inventory_event
    (client : Client) (store item_id : string) (quantity_change : Z) :
  emits is_inventory_publish
    (publish_inventory_event client store item_id quantity_change).
Proof.
  intros o c. rewrite publish_inventory_event_run. cbv zeta.
  destruct (fault o (n_call c)); cbn [snd];
    repeat (constructor; try apply constructed_payload_publish); exact I.
Qed.

Lemma emits_simulation_body (client : Client) :
  emits is_inventory_publish (simulation_body client).
Proof.
  unfold simulation_body, client_connect, client_loop_start, print, time_sleep.
  emits_walk ltac:(exact I) ltac:(apply emits_publish_inventory_event).
Qed.

Lemma emits_main : emits is_inventory_publish main.
Proof.
  unfold main, run_sensor_simulation, client_loop_stop, client_disconnect, print.
  apply emits_bind; [apply emits_ret | intros _].
  apply emits_try_finally.
  - apply emits_try_except; [apply emits_simulation_body|].
    intros e. apply emits_emit. exact I.
  - emits_walk ltac:(exact I) fail.
Qed.

(** C5.  A call of [publish_inventory_event] publishes, on the topic
    [store/{store}/inventory] of its store, the JSON text of a
    dictionary whose keys are exactly event_id, item_id, store_id,
    quantity_change, event_type and timestamp; and every publish of a
    run of the script has that form. *)
Theorem publish_sends_six_field_json_on_store_topic :
  (forall (client : Client) (store item_id : string) (quantity_change : Z)
          (o : oracle) (c : cursor),
      exists p rest,
        snd (publish_inventory_event client store item_id quantity_change o c) =
        MqttPublish ("store/" ++ store ++ "/inventory") (json_dumps p) :: rest /\
        dict_keys p = ["event_id"; "item_id"; "store_id"; "quantity_change";
                       "event_type"; "timestamp"] /\
        json_loads (json_dumps p) = Some p) /\
  (forall (o : oracle) (c : cursor),
      Forall is_inventory_publish (snd (main o c))).
Proof.
  split.
  - intros client store item_id quantity_change o c.
    destruct (publish_inventory_event_head client store item_id
                quantity_change o c) as [rest E].
    exists (constructed_payload store item_id quantity_change o c), rest.
    split; [exact E|]. split; [reflexivity | apply event_payload_roundtrip].
  - exact emits_main.
Qed.

(** C10.  When [publish_inventory_event] publishes a text on a topic
    that reads [store/{s}/inventory], the text decodes to a dictionary
    whose store_id is [s]. *)
Theorem store_id_matches_topic
    (client : Client) (store item_id : string) (quantity_change : Z)
    (o : oracle) (c : cursor) (topic text s : string) (rest : list effect) :
  snd (publish_inventory_event client store item_id quantity_change o c) =
  MqttPublish topic text :: rest ->
  topic = "store/" ++ s ++ "/inventory" ->
  exists p, json_loads text = Some p /\ dict_get "store_id" p = Some (VStr s).
Proof.
  intros Hout Htopic.
  destruct (publish_inventory_event_head client store item_id
              quantity_change o c) as [rest' E].
  rewrite E in Hout. injection Hout as Ht Hx _. subst text.
  rewrite Htopic in Ht.
  apply (string_app_inv_head "store/") in Ht.
  apply string_app_inv_tail in Ht. subst s.
  exists (constructed_payload store item_id quantity_change o c).
  split; [apply event_payload_roundtrip | reflexivity].
Qed.

Lemma store_id_matches_topic_witness :
  exists p,
    json_loads
      (json_dumps (constructed_payload "munich" "JEANS-002" 2
                     Samples.calm cursor0)) = Some p /\
    dict_get "store_id" p = Some (VStr "munich").
Proof.
  apply (store_id_matches_topic MqttClient "munich" "JEANS-002" 2
           Samples.calm cursor0 "store/munich/inventory"
           (json_dumps (constructed_payload "munich" "JEANS-002" 2
                          Samples.calm cursor0))
           "munich"
           (tl (snd (publish_inventory_event MqttClient "munich" "JEANS-002" 2
                       Samples.calm cursor0)))).
  - reflexivity.
  - reflexivity.
Defined.

(** C3, refuted as stated: two calls with the same arguments at the same
    clock reading, whose sixteen random bytes differ, show dictionaries
    with different event_id. *)
Lemma payload_not_determined_by_inputs_and_time :
  ~ payload_determined_by_inputs_and_time.
Proof.
  intros H.
  specialize (H MqttClient "london" "TSHIRT-001" 1
                Samples.calm Samples.calm' cursor0 cursor0 eq_refl).
  vm_compute in H. discriminate H.
Qed.

(** C3, amended.  Two calls of [publish_inventory_event] with the same
    arguments at the same clock reading build dictionaries that agree
    on every key but event_id, and that are equal exactly when their
    event_id texts are equal; this is the case when the two calls draw
    the same sixteen random bytes, and more generally whenever the
    bytes give the same UUID. *)
Theorem payload_determined_up_to_event_id
    (client : Client) (store item_id : string) (quantity_change : Z)
    (o1 o2 : oracle) (c1 c2 : cursor) :
  wall_clock o1 (n_clock c1) = wall_clock o2 (n_clock c2) ->
  let p1 := constructed_payload store item_id quantity_change o1 c1 in
  let p2 := constructed_payload store item_id quantity_change o2 c2 in
  hd_error
    (snd (publish_inventory_event client store item_id quantity_change o1 c1)) =
  Some (MqttPublish ("store/" ++ store ++ "/inventory") (json_dumps p1)) /\
  hd_error
    (snd (publish_inventory_event client store item_id quantity_change o2 c2)) =
  Some (MqttPublish ("store/" ++ store ++ "/inventory") (json_dumps p2)) /\
  (forall k, k <> "event_id" -> dict_get k p1 = dict_get k p2) /\
  (p1 = p2 <-> dict_get "event_id" p1 = dict_get "event_id" p2) /\
  (uuid4_int (urandom16 o1 (n_urandom c1)) =
   uuid4_int (urandom16 o2 (n_urandom c2)) -> p1 = p2) /\
  (urandom16 o1 (n_urandom c1) = urandom16 o2 (n_urandom c2) -> p1 = p2).
Proof.
  intros Hclock p1 p2.
  split; [first_effect_is_publish|]. split; [first_effect_is_publish|].
  split; [|split; [|split]].
  - intros k Hk. unfold p1, p2, constructed_payload, event_payload.
    rewrite Hclock. cbn [dict_get].
    destruct (String.eqb_spec k "event_id"); [contradiction | reflexivity].
  - split; [intros E; rewrite E; reflexivity|].
    intros E. change (Some (VStr (uuid_str (uuid4_int
                                   (urandom16 o1 (n_urandom c1))))) =
                      Some (VStr (uuid_str (uuid4_int
                                   (urandom16 o2 (n_urandom c2)))))) in E.
    pose proof (f_equal (fun x => match x with
                                  | Some (VStr t) => t
                                  | _ => EmptyString
                                  end) E) as E'.
    change (uuid_str (uuid4_int (urandom16 o1 (n_urandom c1))) =
            uuid_str (uuid4_int (urandom16 o2 (n_urandom c2)))) in E'.
    unfold p1, p2, constructed_payload. rewrite Hclock, E'. reflexivity.
  - intros Hu. unfold p1, p2, constructed_payload.
    rewrite Hclock, Hu. reflexivity.
  - intros Hr. unfold p1, p2, constructed_payload.
    rewrite Hclock, Hr. reflexivity.
Qed.

Lemma payload_determined_up_to_event_id_witness :
  wall_clock Samples.calm (n_clock cursor0) =
  wall_clock Samples.calm' (n_clock cursor0) /\
  let p1 := constructed_payload "london" "TSHIRT-001" 1 Samples.calm cursor0 in
  let p2 := constructed_payload "london" "TSHIRT-001" 1 Samples.calm' cursor0 in
  (forall k, k <> "event_id" -> dict_get k p1 = dict_get k p2) /\
  (p1 = p2 <-> dict_get "event_id" p1 = dict_get "event_id" p2) /\
  dict_get "event_id" p1 <> dict_get "event_id" p2.
Proof.
  split; [reflexivity|].
  pose proof (payload_determined_up_to_event_id MqttClient "london"
                "TSHIRT-001" 1 Samples.calm Samples.calm' cursor0 cursor0
                eq_refl) as H.
  cbv zeta in H. destruct H as (_ & _ & Hk & Hiff & _).
  split; [exact Hk|]. split; [exact Hiff|].
  vm_compute. discriminate.
Defined.

(* ================================================================== *)
(** * [inventory_events.py]: the loop driver *)
(* ================================================================== *)

Lemma calm_no_interrupt : no_interrupt Samples.calm.
Proof. intros i. reflexivity. Qed.

Lemma transport_call_ok (e : effect) (o : oracle) (c : cursor) :
  no_fault o ->
  transport_call e o c =
  (Ok tt,
   Cursor (n_randbelow c) (n_random c) (n_urandom c) (n_clock c) (S (n_call c)) (n_sleep c),
   [e]).
Proof. intros H. unfold transport_call. now rewrite H. Qed.

Lemma time_sleep_ok (n : number) (o : oracle) (c : cursor) :
  sigint o (n_sleep c) = false ->
  time_sleep n o c =
  (Ok tt,
   Cursor (n_randbelow c) (n_random c) (n_urandom c) (n_clock c) (n_call c)
          (S (n_sleep c)),
   [Sleep n]).
Proof. intros H. unfold time_sleep. now rewrite H. Qed.

Lemma sleep_delay_bounds (k : Z) :
  0 <= k < grid ->
  (inject_Z 10 <= float_value (uniform 10 20 k) <= inject_Z 20)%Q.
Proof. intros H. apply uniform_bounds; try reflexivity; try lia. Qed.

(** A selection is the element at the index that the generator draws. *)
Lemma random_choice_run {A} (xs : list A) (o : oracle) (c : cursor) :
  random_choice xs o c =
  (match nth_error xs (randbelow o (n_randbelow c) (List.length xs)) with
   | Some x => Ok x
   | None => Raise (Exn "IndexError" "list index out of range")
   end,
   Cursor (S (n_randbelow c)) (n_random c) (n_urandom c) (n_clock c)
          (n_call c) (n_sleep c),
   []).
Proof.
  unfold random_choice. now destruct (nth_error xs _).
Qed.

Lemma drawn_element {A} (xs : list A) (o : oracle) (j : nat) :
  oracle_ok o -> xs <> [] ->
  exists x,
    nth_error xs (randbelow o j (List.length xs)) = Some x /\ In x xs.
Proof.
  intros Hok Hne.
  assert (Hlt : (randbelow o j (List.length xs) < List.length xs)%nat).
  { apply (randbelow_lt o Hok). destruct xs; [congruence | simpl; lia]. }
  destruct (nth_error xs _) as [x|] eqn:E.
  - exists x. split; [reflexivity | eapply nth_error_In; eauto].
  - apply nth_error_None in E. lia.
Qed.

Lemma round_cursor_0 (c : cursor) : round_cursor c 0 = c.
Proof.
  destruct c. unfold round_cursor. cbn [n_randbelow n_random n_urandom n_clock
    n_call n_sleep]. f_equal; lia.
Qed.

Lemma round_cursor_succ (c : cursor) (i : nat) :
  round_cursor (round_cursor c i) 1 = round_cursor c (S i).
Proof.
  unfold round_cursor. cbn [n_randbelow n_random n_urandom n_clock n_call
    n_sleep]. f_equal; lia.
Qed.

(** One round of the loop of [run_sensor_simulation], when nothing
    raises: what it does and where it leaves the cursor. *)
Lemma simulation_round_exact (client : Client) (o : oracle) (c : cursor) :
  oracle_ok o -> fault o (n_call c) = None -> sigint o (n_sleep c) = false ->
  (store <- random_choice STORES ;;
   item_id <- random_choice ITEMS ;;
   quantity_change <- random_choice [-2; -1; 1; 2] ;;
   publish_inventory_event client store item_id quantity_change) o c =
  (Ok tt, round_cursor c 1, round_effects o c) /\
  InventoryEvents.is_round (round_effects o c).
Proof.
  intros Hok Hf Hs.
  destruct (drawn_element STORES o (n_randbelow c) Hok ltac:(discriminate))
    as (store & E1 & I1).
  destruct (drawn_element ITEMS o (S (n_randbelow c)) Hok ltac:(discriminate))
    as (item_id & E2 & I2).
  destruct (drawn_element [-2; -1; 1; 2] o (S (S (n_randbelow c))) Hok
              ltac:(discriminate)) as (qc & E3 & I3).
  change (List.length [-2; -1; 1; 2]) with 4%nat in E3.
  assert (Hr : round_effects o c =
               [ MqttPublish ("store/" ++ store ++ "/inventory")
                   (json_dumps (event_payload store item_id qc
                      (isoformat (wall_clock o (n_clock c)))
                      (uuid_str (uuid4_int (urandom16 o (n_urandom c))))));
                 Print (LinePublished ("store/" ++ store ++ "/inventory")
                   (event_payload store item_id qc
                      (isoformat (wall_clock o (n_clock c)))
                      (uuid_str (uuid4_int (urandom16 o (n_urandom c))))));
                 Sleep (NFloat (uniform 10 20 (random o (n_random c)))) ]).
  { unfold round_effects. now rewrite E1, E2, E3. }
  split.
  - rewrite Hr, bind_unfold, random_choice_run, E1.
    rewrite bind_unfold, random_choice_run.
    cbn [n_randbelow n_random n_urandom n_clock n_call n_sleep]. rewrite E2.
    rewrite bind_unfold, random_choice_run.
    cbn [n_randbelow n_random n_urandom n_clock n_call n_sleep].
    change (List.length [-2; -1; 1; 2]) with 4%nat. rewrite E3.
    rewrite publish_inventory_event_run. cbv zeta.
    unfold constructed_payload.
    cbn [n_randbelow n_random n_urandom n_clock n_call n_sleep].
    rewrite Hf, Hs. cbn [app]. unfold round_cursor.
    do 2 f_equal. f_equal; lia.
  - rewrite Hr.
    exists store, item_id, qc,
      (isoformat (wall_clock o (n_clock c))),
      (uuid_str (uuid4_int (urandom16 o (n_urandom c)))),
      (uniform 10 20 (random o (n_random c))).
    split; [exact I1|]. split; [exact I2|]. split; [exact I3|].
    split; [|reflexivity].
    apply sleep_delay_bounds, (random_range o Hok).
Qed.

(** The rounds of the loop, one after the other. *)
Lemma rounds_exact (client : Client) (o : oracle) (c0 : cursor) :
  oracle_ok o -> no_fault o -> no_interrupt o ->
  forall (xs : list nat) (s : nat),
    for_in xs (fun _ =>
      store <- random_choice STORES ;;
      item_id <- random_choice ITEMS ;;
      quantity_change <- random_choice [-2; -1; 1; 2] ;;
      publish_inventory_event client store item_id quantity_change) o
      (round_cursor c0 s) =
    (Ok tt, round_cursor c0 (s + List.length xs),
     List.concat (map (fun i => round_effects o (round_cursor c0 i))
                      (seq s (List.length xs)))).
Proof.
  intros Hok Hnf Hni. induction xs as [|x xs IH]; intros s.
  - cbn. now rewrite Nat.add_0_r.
  - cbn [for_in List.length seq map List.concat].
    destruct (simulation_round_exact client o (round_cursor c0 s) Hok
                (Hnf _) (Hni _)) as [E _].
    rewrite (bind_ok _ _ _ _ _ _ _ E), round_cursor_succ, IH.
    replace (S s + List.length xs)%nat with (s + S (List.length xs))%nat by lia.
    reflexivity.
Qed.

Lemma rounds_are_rounds (o : oracle) (c0 : cursor) (s n : nat) :
  oracle_ok o -> no_fault o -> no_interrupt o ->
  Forall InventoryEvents.is_round
    (map (fun i => round_effects o (round_cursor c0 i)) (seq s n)).
Proof.
  intros Hok Hnf Hni. apply Forall_forall. intros es Hes.
  apply in_map_iff in Hes as (i & <- & _).
  apply (simulation_round_exact MqttClient o (round_cursor c0 i) Hok
           (Hnf _) (Hni _)).
Qed.

(** The suite of the [try] statement, when nothing raises. *)
Lemma simulation_body_exact (client : Client) (o : oracle) (c : cursor) :
  oracle_ok o -> no_fault o -> no_interrupt o ->
  simulation_body client o c =
  (Ok tt,
   Cursor (n_randbelow c + 300) (n_random c + 100) (n_urandom c + 100)
          (n_clock c + 100) (n_call c + 102) (n_sleep c + 101),
   [MqttConnect "localhost" 1883 60; MqttLoopStart; Print LineStarting]
     ++ List.concat (map (fun i => round_effects o (round_cursor c i))
                         (range 100))
     ++ [Sleep (NInt 5)])%list.
Proof.
  intros Hok Hnf Hni. unfold simulation_body, client_connect, client_loop_start.
  rewrite (bind_ok _ _ _ _ _ _ _ (transport_call_ok _ o c Hnf)).
  rewrite (bind_ok _ _ _ _ _ _ _ (transport_call_ok _ o _ Hnf)).
  rewrite (bind_ok (print LineStarting) _ _ _ tt _ [Print LineStarting] eq_refl).
  cbn [n_randbelow n_random n_urandom n_clock n_call n_sleep].
  set (c2 := Cursor (n_randbelow c) (n_random c) (n_urandom c) (n_clock c)
                    (S (S (n_call c))) (n_sleep c)).
  pose proof (rounds_exact client o c2 Hok Hnf Hni (range 100) 0) as E.
  rewrite round_cursor_0 in E.
  rewrite (bind_ok _ _ _ _ _ _ _ E).
  rewrite (time_sleep_ok _ o _ (Hni _)).
  unfold range. rewrite length_seq.
  unfold round_cursor, c2.
  cbn [n_randbelow n_random n_urandom n_clock n_call n_sleep app].
  f_equal. f_equal. f_equal; lia.
Qed.

Lemma simulation_body_ok (client : Client) (o : oracle) (c : cursor) :
  oracle_ok o -> no_fault o -> no_interrupt o ->
  exists c' rounds,
    simulation_body client o c =
    (Ok tt, c',
     [MqttConnect "localhost" 1883 60; MqttLoopStart; Print LineStarting]
       ++ List.concat rounds ++ [Sleep (NInt 5)])%list /\
    List.length rounds = 100%nat /\ Forall InventoryEvents.is_round rounds.
Proof.
  intros Hok Hnf Hni. eexists. eexists.
  split; [apply (simulation_body_exact client o c Hok Hnf Hni)|].
  split; [now rewrite length_map; unfold range; rewrite length_seq|].
  now apply rounds_are_rounds.
Qed.

Lemma main_unfold (o : oracle) (c : cursor) :
  main o c =
  try_finally
    (try_except (simulation_body MqttClient) (fun e => print (LineError e)))
    (client_loop_stop MqttClient ;; client_disconnect MqttClient ;;
     print LineFinished) o c.
Proof.
  unfold main, run_sensor_simulation. rewrite bind_unfold. cbn [truthy MQTT_USER
    MQTT_PASSWORD String.eqb negb andb ret].
  match goal with |- match ?x with _ => _ end = _ =>
    destruct x as [[r c2] out2] end.
  reflexivity.
Qed.

Lemma main_of_body (o : oracle) (c : cursor) :
  main o c =
  match simulation_body MqttClient o c with
  | (Ok _, c1, out1) =>
      (Ok tt, c1, out1 ++ [MqttLoopStop; MqttDisconnect; Print LineFinished])%list
  | (Raise e, c1, out1) =>
      (Ok tt, c1,
       out1 ++ [Print (LineError e); MqttLoopStop; MqttDisconnect;
                Print LineFinished])%list
  | (Running, c1, out1) => (Running, c1, out1)
  | (Interrupted, c1, out1) =>
      (Interrupted, c1,
       out1 ++ [MqttLoopStop; MqttDisconnect; Print LineFinished])%list
  end.
Proof.
  rewrite main_unfold. unfold try_finally, try_except.
  destruct (simulation_body MqttClient o c) as [[[[]|e| |] c1] out1];
    cbn; rewrite <- ?app_assoc; reflexivity.
Qed.

(** C4.  When no call raises and no interrupt arrives, a run of the
    script connects, starts the network loop, prints the starting line,
    makes exactly 100 rounds, sleeps 5, stops the network loop,
    disconnects and prints the last line.  Round [i] selects its store,
    its item and its quantity change with three draws of its own of the
    random generator (the draws 3i, 3i+1 and 3i+2 of the run), from the
    four-element catalog, the five-element catalog and -2, -1, 1, 2;
    it publishes one event, prints the confirmation and sleeps for the
    delay that its own draw of [random.uniform(10, 20)] gives, between
    10 and 20.  The run has then drawn 300 selections and 100 delays. *)
Theorem broker_loop_runs_100_rounds (o : oracle) (c : cursor) :
  oracle_ok o -> no_fault o -> no_interrupt o ->
  let rounds :=
    map (fun i => round_effects o (round_cursor c i)) (range 100) in
  main o c =
  (Ok tt,
   Cursor (n_randbelow c + 300) (n_random c + 100) (n_urandom c + 100)
          (n_clock c + 100) (n_call c + 102) (n_sleep c + 101),
   [MqttConnect "localhost" 1883 60; MqttLoopStart; Print LineStarting]
     ++ List.concat rounds
     ++ [Sleep (NInt 5); MqttLoopStop; MqttDisconnect; Print LineFinished])%list
  /\ List.length rounds = 100%nat
  /\ Forall InventoryEvents.is_round rounds
  /\ List.length STORES = 4%nat /\ List.length ITEMS = 5%nat.
Proof.
  intros Hok Hnf Hni rounds.
  rewrite main_of_body, (simulation_body_exact MqttClient o c Hok Hnf Hni).
  split; [now rewrite <- !app_assoc|].
  split; [unfold rounds, range; now rewrite length_map, length_seq|].
  split; [now apply rounds_are_rounds|].
  split; reflexivity.
Qed.

Lemma broker_loop_runs_100_rounds_witness :
  oracle_ok Samples.calm /\ no_fault Samples.calm /\
  no_interrupt Samples.calm /\
  let rounds :=
    map (fun i => round_effects Samples.calm (round_cursor cursor0 i))
        (range 100) in
  main Samples.calm cursor0 =
  (Ok tt,
   Cursor (n_randbelow cursor0 + 300) (n_random cursor0 + 100)
          (n_urandom cursor0 + 100) (n_clock cursor0 + 100)
          (n_call cursor0 + 102) (n_sleep cursor0 + 101),
   [MqttConnect "localhost" 1883 60; MqttLoopStart; Print LineStarting]
     ++ List.concat rounds
     ++ [Sleep (NInt 5); MqttLoopStop; MqttDisconnect; Print LineFinished])%list
  /\ List.length rounds = 100%nat
  /\ Forall InventoryEvents.is_round rounds
  /\ List.length STORES = 4%nat /\ List.length ITEMS = 5%nat.
Proof.
  split; [exact calm_ok|]. split; [exact calm_no_fault|].
  split; [exact calm_no_interrupt|].
  exact (broker_loop_runs_100_rounds Samples.calm cursor0 calm_ok
           calm_no_fault calm_no_interrupt).
Defined.

Lemma publish_inventory_event_quiet
    (client : Client) (store item_id : string) (quantity_change : Z) :
  emits not_error_line
    (publish_inventory_event client store item_id quantity_change) /\
  halts (publish_inventory_event client store item_id quantity_change).
Proof.
  split; intros o c; rewrite publish_inventory_event_run; cbv zeta;
    destruct (fault o (n_call c)); cbn [snd fst];
    try discriminate; try (repeat constructor);
    destruct (sigint o (n_sleep c)); discriminate.
Qed.

(** The suite of the [try] statement prints no error line and does not
    loop for ever. *)
Lemma simulation_body_quiet (client : Client) :
  emits not_error_line (simulation_body client) /\
  halts (simulation_body client).
Proof.
  unfold simulation_body, client_connect, client_loop_start, print.
  split.
  - emits_walk ltac:(reflexivity) ltac:(apply publish_inventory_event_quiet).
  - repeat first
      [ apply halts_for_in; intros ?
      | apply publish_inventory_event_quiet
      | apply halts_transport_call
      | apply halts_emit
      | apply halts_time_sleep
      | apply halts_random_choice
      | apply halts_bind; [|intros ?] ].
Qed.

Lemma no_error_line_filter (out : list effect) :
  Forall not_error_line out -> filter is_error_line out = [].
Proof.
  induction 1 as [|x l Hx _ IH]; [reflexivity|].
  cbn [filter]. now rewrite Hx.
Qed.

(** C6, refuted as stated: a keyboard interrupt that arrives while the
    script sleeps in the loop is not an instance of [Exception]; it
    passes the handler, no error line is printed and the script does
    not exit with status 0. *)
Lemma interrupt_is_not_caught : ~ every_failure_is_caught.
Proof.
  intros H.
  destruct (H Samples.interrupted cursor0) as [H0 _].
  - vm_compute. discriminate.
  - vm_compute in H0. discriminate H0.
Qed.

(** C6, amended.  In every run the cleanup comes last: the network loop
    is stopped, the client is disconnected and the last line is
    printed.  When the suite of the [try] statement raises an instance
    of [Exception], it is caught: the handler prints one error line,
    the only one of the run, between the effects of the suite and those
    of the cleanup, and the script returns normally (exit status 0), as
    it does when nothing is raised.  When a keyboard interrupt arrives
    in the suite, it is not caught: the cleanup still runs, no error
    line is printed and the exit status is not 0. *)
Theorem exception_in_loop_is_caught_and_cleaned_up :
  (forall (o : oracle) (c : cursor),
      exists out0,
        snd (main o c) =
        (out0 ++ [MqttLoopStop; MqttDisconnect; Print LineFinished])%list) /\
  (forall (o : oracle) (c c1 : cursor) (e : exn) (out1 : list effect),
      simulation_body MqttClient o c = (Raise e, c1, out1) ->
      main o c =
      (Ok tt, c1,
       out1 ++ [Print (LineError e); MqttLoopStop; MqttDisconnect;
                Print LineFinished])%list /\
      Forall not_error_line out1 /\
      count is_error_line (snd (main o c)) = 1%nat /\
      exit_status (fst (fst (main o c))) = Some 0) /\
  (forall (o : oracle) (c c1 : cursor) (out1 : list effect),
      simulation_body MqttClient o c = (Ok tt, c1, out1) ->
      main o c =
      (Ok tt, c1,
       out1 ++ [MqttLoopStop; MqttDisconnect; Print LineFinished])%list /\
      exit_status (fst (fst (main o c))) = Some 0) /\
  (forall (o : oracle) (c c1 : cursor) (out1 : list effect),
      simulation_body MqttClient o c = (Interrupted, c1, out1) ->
      main o c =
      (Interrupted, c1,
       out1 ++ [MqttLoopStop; MqttDisconnect; Print LineFinished])%list /\
      count is_error_line (snd (main o c)) = 0%nat /\
      exit_status (fst (fst (main o c))) <> Some 0).
Proof.
  split; [|split; [|split]].
  - intros o c. rewrite main_of_body.
    pose proof (proj2 (simulation_body_quiet MqttClient) o c) as Hh.
    destruct (simulation_body MqttClient o c) as [[[[]|e| |] c1] out1];
      cbn [fst snd] in *; [| |congruence|].
    + now exists out1.
    + exists (out1 ++ [Print (LineError e)])%list. now rewrite <- app_assoc.
    + now exists out1.
  - intros o c c1 e out1 E.
    pose proof (proj1 (simulation_body_quiet MqttClient) o c) as Hq.
    rewrite main_of_body, E in *. cbn [fst snd] in *.
    split; [reflexivity|]. split; [exact Hq|]. split; [|reflexivity].
    unfold count.
    rewrite filter_app, length_app, (no_error_line_filter out1 Hq).
    reflexivity.
  - intros o c c1 out1 E. rewrite main_of_body, E. split; reflexivity.
  - intros o c c1 out1 E.
    pose proof (proj1 (simulation_body_quiet MqttClient) o c) as Hq.
    rewrite main_of_body, E in *. cbn [fst snd] in *.
    split; [reflexivity|]. split; [|discriminate].
    unfold count.
    rewrite filter_app, (no_error_line_filter out1 Hq). reflexivity.
Qed.

Lemma exception_in_loop_is_caught_and_cleaned_up_witness :
  (let r := simulation_body MqttClient Samples.stormy cursor0 in
   let e := Exn "OSError" "[Errno 32] Broken pipe" in
   r = (Raise e, snd (fst r), snd r) /\
   main Samples.stormy cursor0 =
   (Ok tt, snd (fst r),
    snd r ++ [Print (LineError e); MqttLoopStop; MqttDisconnect;
              Print LineFinished])%list /\
   Forall not_error_line (snd r) /\
   count is_error_line (snd (main Samples.stormy cursor0)) = 1%nat /\
   exit_status (fst (fst (main Samples.stormy cursor0))) = Some 0) /\
  (let r := simulation_body MqttClient Samples.interrupted cursor0 in
   r = (Interrupted, snd (fst r), snd r) /\
   main Samples.interrupted cursor0 =
   (Interrupted, snd (fst r),
    snd r ++ [MqttLoopStop; MqttDisconnect; Print LineFinished])%list /\
   count is_error_line (snd (main Samples.interrupted cursor0)) = 0%nat /\
   exit_status (fst (fst (main Samples.interrupted cursor0))) <> Some 0).
Proof.
  split.
  - intros r e.
    assert (H : r = (Raise e, snd (fst r), snd r)) by (vm_compute; reflexivity).
    split; [exact H|].
    exact (proj1 (proj2 exception_in_loop_is_caught_and_cleaned_up)
             Samples.stormy cursor0 (snd (fst r)) e (snd r) H).
  - intros r.
    assert (H : r = (Interrupted, snd (fst r), snd r))
      by (vm_compute; reflexivity).
    split; [exact H|].
    exact (proj2 (proj2 (proj2 exception_in_loop_is_caught_and_cleaned_up))
             Samples.interrupted cursor0 (snd (fst r)) (snd r) H).
Defined.

(* ================================================================== *)
(** * [simulate_sensor_data.py] *)
(* ================================================================== *)

Import Sensor_pb2 SimulateSensorData.

Lemma generate_sensor_data_run (o : oracle) (c : cursor) :
  generate_sensor_data o c =
  (Ok (Build_SensorData "sensor-123"
         (uniform 20 35 (random o (n_random c)))
         (uniform 1000 1100 (random o (S (n_random c))))
         (uniform 40 60 (random o (S (S (n_random c)))))
         (strftime_Ymd_HMS (wall_clock o (n_clock c)))),
   Cursor (n_randbelow c) (S (S (S (n_random c)))) (n_urandom c)
          (S (n_clock c)) (n_call c) (n_sleep c),
   []).
Proof. reflexivity. Qed.

(** C2.  Every reading that [generate_sensor_data] returns has the
    sensor_id "sensor-123", a temperature between 20 and 35, a pressure
    between 1000 and 1100, a humidity between 40 and 60 (bounds
    included), and a timestamp of the shape YYYY-MM-DD HH:MM:SS, for
    draws of [random()] in [0, 1) and a clock that shows a valid time
    with a four-digit year. *)
Theorem sensor_reading_in_range (o : oracle) (c : cursor) :
  oracle_ok o ->
  exists msg c',
    generate_sensor_data o c = (Ok msg, c', []) /\
    sensor_id msg = "sensor-123" /\
    (inject_Z 20 <= float_value (temperature msg) <= inject_Z 35)%Q /\
    (inject_Z 1000 <= float_value (pressure msg) <= inject_Z 1100)%Q /\
    (inject_Z 40 <= float_value (humidity msg) <= inject_Z 60)%Q /\
    has_shape shape_Ymd_HMS (timestamp msg) = true.
Proof.
  intros Hok. rewrite generate_sensor_data_run.
  eexists. eexists. split; [reflexivity|].
  cbn [sensor_id temperature pressure humidity timestamp].
  split; [reflexivity|].
  repeat (split;
          [apply uniform_bounds;
           first [reflexivity | lia | apply (random_range o Hok)]|]).
  apply strftime_shape, (clock_valid o Hok).
Qed.

Lemma sensor_reading_in_range_witness :
  oracle_ok Samples.calm /\
  exists msg c',
    generate_sensor_data Samples.calm cursor0 = (Ok msg, c', []) /\
    sensor_id msg = "sensor-123" /\
    (inject_Z 20 <= float_value (temperature msg) <= inject_Z 35)%Q /\
    (inject_Z 1000 <= float_value (pressure msg) <= inject_Z 1100)%Q /\
    (inject_Z 40 <= float_value (humidity msg) <= inject_Z 60)%Q /\
    has_shape shape_Ymd_HMS (timestamp msg) = true.
Proof.
  split; [exact calm_ok|].
  exact (sensor_reading_in_range Samples.calm cursor0 calm_ok).
Defined.

Lemma cycle_cursor_0 (c : cursor) : cycle_cursor c 0 = c.
Proof.
  destruct c. unfold cycle_cursor. cbn [n_randbelow n_random n_urandom n_clock
    n_call n_sleep]. f_equal; lia.
Qed.

Lemma cycle_cursor_add (c : cursor) (i j : nat) :
  cycle_cursor (cycle_cursor c i) j = cycle_cursor c (i + j).
Proof.
  unfold cycle_cursor. cbn [n_randbelow n_random n_urandom n_clock n_call
    n_sleep]. f_equal; lia.
Qed.

(** The effects of a complete round are those of the reading that is
    generated at the start of the round. *)
Lemma cycle_effects_run (o : oracle) (c : cursor) :
  exists msg c',
    generate_sensor_data o c = (Ok msg, c', []) /\
    cycle_effects o c =
    [GrpcSendTelemetryData msg; Print (LineSent msg); Sleep (NInt 5)].
Proof.
  eexists. eexists. split; [apply generate_sensor_data_run|].
  unfold cycle_effects. now rewrite generate_sensor_data_run.
Qed.

Lemma cycle_effects_is_round (o : oracle) (c : cursor) :
  SimulateSensorData.is_round o (cycle_effects o c).
Proof.
  destruct (cycle_effects_run o c) as (msg & c' & G & E).
  exists c, msg. now rewrite G, E.
Qed.

(** One round of the loop of the script: the send raises, or the sleep
    is interrupted, or the round is complete. *)
Lemma sensor_round_run (o : oracle) (c : cursor) :
  (SensorData <- generate_sensor_data ;;
   stub_SendTelemetryData SensorData ;;
   print (LineSent SensorData) ;;
   time_sleep (NInt 5)) o c =
  match fault o (n_call c) with
  | Some e =>
      (Raise e,
       Cursor (n_randbelow c) (S (S (S (n_random c)))) (n_urandom c)
              (S (n_clock c)) (S (n_call c)) (n_sleep c),
       firstn 1 (cycle_effects o c))
  | None =>
      (if sigint o (n_sleep c) then Interrupted else Ok tt,
       cycle_cursor c 1, cycle_effects o c)
  end.
Proof.
  rewrite (bind_ok _ _ _ _ _ _ _ (generate_sensor_data_run o c)).
  unfold cycle_effects. rewrite generate_sensor_data_run. cbn [fst firstn app].
  unfold stub_SendTelemetryData, transport_call, print, emit, time_sleep.
  rewrite !bind_unfold.
  cbn [n_randbelow n_random n_urandom n_clock n_call n_sleep].
  destruct (fault o (n_call c)); [reflexivity|].
  rewrite !bind_unfold.
  cbn [n_randbelow n_random n_urandom n_clock n_call n_sleep].
  unfold cycle_cursor.
  destruct (sigint o (n_sleep c)); cbn [app]; do 2 f_equal; f_equal; lia.
Qed.

Lemma sensor_round (o : oracle) (c : cursor) :
  fault o (n_call c) = None -> sigint o (n_sleep c) = false ->
  (SensorData <- generate_sensor_data ;;
   stub_SendTelemetryData SensorData ;;
   print (LineSent SensorData) ;;
   time_sleep (NInt 5)) o c = (Ok tt, cycle_cursor c 1, cycle_effects o c).
Proof. intros Hf Hs. now rewrite sensor_round_run, Hf, Hs. Qed.

(** The first [k] rounds of the loop, when nothing stops them. *)
Lemma sensor_rounds_prefix (o : oracle) :
  forall (k fuel : nat) (c : cursor),
    (forall i, (i < k)%nat -> fault o (n_call c + i)%nat = None) ->
    (forall i, (i < k)%nat -> sigint o (n_sleep c + i)%nat = false) ->
    while_true (k + fuel)
      (SensorData <- generate_sensor_data ;;
       stub_SendTelemetryData SensorData ;;
       print (LineSent SensorData) ;;
       time_sleep (NInt 5)) o c =
    let R :=
      while_true fuel
        (SensorData <- generate_sensor_data ;;
         stub_SendTelemetryData SensorData ;;
         print (LineSent SensorData) ;;
         time_sleep (NInt 5)) o (cycle_cursor c k) in
    (fst (fst R), snd (fst R),
     List.concat (map (fun i => cycle_effects o (cycle_cursor c i)) (seq 0 k))
       ++ snd R)%list.
Proof.
  induction k as [|k IH]; intros fuel c Hf Hs; cbv zeta.
  - rewrite cycle_cursor_0. cbn [Nat.add seq map List.concat app].
    now destruct (while_true fuel _ o c) as [[r c'] out].
  - cbn [Nat.add while_true].
    assert (E := sensor_round o c).
    rewrite (bind_ok _ _ _ _ _ _ _ (E ltac:(rewrite <- (Nat.add_0_r (n_call c));
                                             apply Hf; lia)
                                       ltac:(rewrite <- (Nat.add_0_r (n_sleep c));
                                             apply Hs; lia))).
    rewrite IH.
    + cbv zeta. rewrite cycle_cursor_add. cbn [Nat.add seq map List.concat].
      rewrite cycle_cursor_0, <- seq_shift, map_map, <- app_assoc.
      do 2 f_equal. f_equal. f_equal. apply map_ext. intros i.
      now rewrite cycle_cursor_add.
    + intros i Hi. cbn [cycle_cursor n_call].
      replace (n_call c + 1 + i)%nat with (n_call c + S i)%nat by lia.
      apply Hf. lia.
    + intros i Hi. cbn [cycle_cursor n_sleep].
      replace (n_sleep c + 1 + i)%nat with (n_sleep c + S i)%nat by lia.
      apply Hs. lia.
Qed.

Lemma main_of_loop (fuel : nat) (o : oracle) (c : cursor) :
  SimulateSensorData.main fuel o c =
  match while_true fuel
          (SensorData <- generate_sensor_data ;;
           stub_SendTelemetryData SensorData ;;
           print (LineSent SensorData) ;;
           time_sleep (NInt 5)) o c with
  | (Running, c1, out1) => (Running, c1, GrpcChannelOpen "localhost:9090" :: out1)
  | (r, c1, out1) =>
      (r, c1, GrpcChannelOpen "localhost:9090" :: out1 ++ [GrpcChannelClose])%list
  end.
Proof.
  unfold SimulateSensorData.main, with_insecure_channel.
  rewrite (bind_ok (emit _) _ _ _ tt c [GrpcChannelOpen "localhost:9090"] eq_refl).
  unfold try_finally.
  now destruct (while_true fuel _ o c) as [[[[]|e| |] c1] out1].
Qed.

(** The first round that something stops, if there is one. *)
Lemma first_stop (P : nat -> bool) (n : nat) :
  (forall i, (i < n)%nat -> P i = false) \/
  (exists k, (k < n)%nat /\ P k = true /\
             forall i, (i < k)%nat -> P i = false).
Proof.
  induction n as [|n [IH | (k & Hk & Pk & Hb)]].
  - left. intros i Hi. lia.
  - destruct (P n) eqn:Pn.
    + right. exists n. repeat split; auto.
    + left. intros i Hi. destruct (Nat.eq_dec i n) as [-> | Hne]; [exact Pn|].
      apply IH. lia.
  - right. exists k. repeat split; auto.
Qed.

(** The loop when the send of round [k] raises. *)
Lemma sends_until_fault (o : oracle) (e : exn) (k fuel : nat) (c : cursor) :
  (k < fuel)%nat ->
  (forall i, (i < k)%nat -> fault o (n_call c + i)%nat = None) ->
  (forall i, (i < k)%nat -> sigint o (n_sleep c + i)%nat = false) ->
  fault o (n_call c + k)%nat = Some e ->
  while_true fuel
    (SensorData <- generate_sensor_data ;;
     stub_SendTelemetryData SensorData ;;
     print (LineSent SensorData) ;;
     time_sleep (NInt 5)) o c =
  (Raise e,
   Cursor (n_randbelow c) (S (S (S (n_random c + 3 * k)))) (n_urandom c)
          (S (n_clock c + k)) (S (n_call c + k)) (n_sleep c + k),
   List.concat (map (fun i => cycle_effects o (cycle_cursor c i)) (seq 0 k))
     ++ firstn 1 (cycle_effects o (cycle_cursor c k)))%list.
Proof.
  intros Hk Hf Hs Hat.
  replace fuel with (k + S (fuel - S k))%nat by lia.
  rewrite (sensor_rounds_prefix o k _ c Hf Hs). cbv zeta.
  cbn [while_true]. rewrite bind_unfold, sensor_round_run.
  cbn [cycle_cursor n_randbelow n_random n_urandom n_clock n_call n_sleep].
  rewrite Hat. reflexivity.
Qed.

(** The loop when the sleep of round [k] is interrupted. *)
Lemma sends_until_interrupt (o : oracle) (k fuel : nat) (c : cursor) :
  (k < fuel)%nat ->
  (forall i, (i < k)%nat -> fault o (n_call c + i)%nat = None) ->
  (forall i, (i < k)%nat -> sigint o (n_sleep c + i)%nat = false) ->
  fault o (n_call c + k)%nat = None ->
  sigint o (n_sleep c + k)%nat = true ->
  while_true fuel
    (SensorData <- generate_sensor_data ;;
     stub_SendTelemetryData SensorData ;;
     print (LineSent SensorData) ;;
     time_sleep (NInt 5)) o c =
  (Interrupted, cycle_cursor c (S k),
   List.concat (map (fun i => cycle_effects o (cycle_cursor c i)) (seq 0 k))
     ++ cycle_effects o (cycle_cursor c k))%list.
Proof.
  intros Hk Hf Hs Hat Hi.
  replace fuel with (k + S (fuel - S k))%nat by lia.
  rewrite (sensor_rounds_prefix o k _ c Hf Hs). cbv zeta.
  cbn [while_true]. rewrite bind_unfold, sensor_round_run.
  cbn [cycle_cursor n_randbelow n_random n_urandom n_clock n_call n_sleep].
  rewrite Hat, Hi. cbn [fst snd]. rewrite cycle_cursor_add.
  now replace (k + 1)%nat with (S k) by lia.
Qed.

(** The loop while nothing stops it. *)
Lemma sends_while_running (o : oracle) (fuel : nat) (c : cursor) :
  (forall i, (i < fuel)%nat -> fault o (n_call c + i)%nat = None) ->
  (forall i, (i < fuel)%nat -> sigint o (n_sleep c + i)%nat = false) ->
  while_true fuel
    (SensorData <- generate_sensor_data ;;
     stub_SendTelemetryData SensorData ;;
     print (LineSent SensorData) ;;
     time_sleep (NInt 5)) o c =
  (Running, cycle_cursor c fuel,
   List.concat (map (fun i => cycle_effects o (cycle_cursor c i))
                    (seq 0 fuel))).
Proof.
  intros Hf Hs.
  rewrite <- (Nat.add_0_r fuel) at 1.
  rewrite (sensor_rounds_prefix o fuel 0 c Hf Hs). cbv zeta.
  cbn [while_true fst snd]. now rewrite app_nil_r.
Qed.

(** C7.  The loop of the script never returns.  A complete round
    generates a reading at the start of the round, sends that reading,
    prints it and sleeps 5, and round [i] of the run draws its reading
    at the cursor that [i] complete rounds leave.  However many rounds
    are run, the script has not terminated normally: it is still
    running after that many complete rounds, or the send of some round
    raised and ended it with that exception after the complete rounds
    before, or a keyboard interrupt in the sleep of some round ended
    it; in both cases the channel is closed.  When no call raises and
    no interrupt arrives, the script is still running after any number
    of rounds, with the channel open, and its trace is exactly those
    rounds. *)
Theorem rpc_loop_never_returns :
  (forall (o : oracle) (c : cursor),
      exists msg c',
        generate_sensor_data o c = (Ok msg, c', []) /\
        cycle_effects o c =
        [GrpcSendTelemetryData msg; Print (LineSent msg); Sleep (NInt 5)]) /\
  (forall (fuel : nat) (o : oracle) (c : cursor),
      fst (fst (SimulateSensorData.main fuel o c)) <> Ok tt /\
      exists k,
        let rounds :=
          map (fun i => cycle_effects o (cycle_cursor c i)) (seq 0 k) in
        (forall i, (i < k)%nat ->
                   fault o (n_call c + i)%nat = None /\
                   sigint o (n_sleep c + i)%nat = false) /\
        ((k = fuel /\
          SimulateSensorData.main fuel o c =
          (Running, cycle_cursor c fuel,
           GrpcChannelOpen "localhost:9090" :: List.concat rounds)) \/
         ((k < fuel)%nat /\
          exists e c',
            fault o (n_call c + k)%nat = Some e /\
            SimulateSensorData.main fuel o c =
            (Raise e, c',
             GrpcChannelOpen "localhost:9090"
               :: List.concat rounds
               ++ firstn 1 (cycle_effects o (cycle_cursor c k))
               ++ [GrpcChannelClose])%list) \/
         ((k < fuel)%nat /\
          fault o (n_call c + k)%nat = None /\
          sigint o (n_sleep c + k)%nat = true /\
          SimulateSensorData.main fuel o c =
          (Interrupted, cycle_cursor c (S k),
           GrpcChannelOpen "localhost:9090"
             :: List.concat rounds
             ++ cycle_effects o (cycle_cursor c k)
             ++ [GrpcChannelClose])%list))) /\
  (forall (fuel : nat) (o : oracle) (c : cursor),
      no_fault o -> no_interrupt o ->
      let rounds :=
        map (fun i => cycle_effects o (cycle_cursor c i)) (seq 0 fuel) in
      SimulateSensorData.main fuel o c =
      (Running, cycle_cursor c fuel,
       GrpcChannelOpen "localhost:9090" :: List.concat rounds) /\
      List.length rounds = fuel /\
      Forall (SimulateSensorData.is_round o) rounds).
Proof.
  split; [exact cycle_effects_run|]. split.
  - intros fuel o c.
    set (P := fun i => match fault o (n_call c + i)%nat with
                       | Some _ => true
                       | None => sigint o (n_sleep c + i)%nat
                       end).
    assert (HP : forall n, (forall i, (i < n)%nat -> P i = false) ->
                 forall i, (i < n)%nat ->
                   fault o (n_call c + i)%nat = None /\
                   sigint o (n_sleep c + i)%nat = false).
    { intros n H i Hi. specialize (H i Hi). unfold P in H.
      destruct (fault o (n_call c + i)%nat); [discriminate | now split]. }
    destruct (first_stop P fuel) as [Hnone | (k & Hk & Pk & Hb)].
    + pose proof (sends_while_running o fuel c
                    (fun i Hi => proj1 (HP fuel Hnone i Hi))
                    (fun i Hi => proj2 (HP fuel Hnone i Hi))) as E.
      rewrite main_of_loop, E. split; [discriminate|].
      exists fuel. cbv zeta. split; [exact (HP fuel Hnone)|]. left. now split.
    + unfold P in Pk.
      destruct (fault o (n_call c + k)%nat) as [e|] eqn:Hat.
      * pose proof (sends_until_fault o e k fuel c Hk
                      (fun i Hi => proj1 (HP k Hb i Hi))
                      (fun i Hi => proj2 (HP k Hb i Hi)) Hat) as E.
        rewrite main_of_loop, E. split; [discriminate|].
        exists k. cbv zeta. split; [exact (HP k Hb)|]. right. left.
        split; [exact Hk|]. exists e. eexists. split; [exact Hat|].
        now rewrite <- app_assoc.
      * pose proof (sends_until_interrupt o k fuel c Hk
                      (fun i Hi => proj1 (HP k Hb i Hi))
                      (fun i Hi => proj2 (HP k Hb i Hi)) Hat Pk) as E.
        rewrite main_of_loop, E. split; [discriminate|].
        exists k. cbv zeta. split; [exact (HP k Hb)|]. right. right.
        split; [exact Hk|]. split; [exact Hat|]. split; [exact Pk|].
        now rewrite <- app_assoc.
  - intros fuel o c Hnf Hni rounds.
    rewrite main_of_loop,
      (sends_while_running o fuel c (fun i _ => Hnf _) (fun i _ => Hni _)).
    split; [reflexivity|].
    split; [unfold rounds; now rewrite length_map, length_seq|].
    apply Forall_forall. intros es Hes.
    apply in_map_iff in Hes as (i & <- & _). apply cycle_effects_is_round.
Qed.

Lemma rpc_loop_never_returns_witness :
  no_fault Samples.calm /\ no_interrupt Samples.calm /\
  let rounds :=
    map (fun i => cycle_effects Samples.calm (cycle_cursor cursor0 i))
        (seq 0 3) in
  SimulateSensorData.main 3 Samples.calm cursor0 =
  (Running, cycle_cursor cursor0 3,
   GrpcChannelOpen "localhost:9090" :: List.concat rounds) /\
  List.length rounds = 3%nat /\
  Forall (SimulateSensorData.is_round Samples.calm) rounds.
Proof.
  split; [exact calm_no_fault|]. split; [exact calm_no_interrupt|].
  exact (proj2 (proj2 rpc_loop_never_returns) 3%nat Samples.calm cursor0
           calm_no_fault calm_no_interrupt).
Defined.

(* ================================================================== *)
(** * Further properties: the broker variant when a call raises *)
(* ================================================================== *)

Lemma transport_call_at (e : effect) (o : oracle) (c : cursor) :
  fault o (n_call c) = None ->
  transport_call e o c =
  (Ok tt,
   Cursor (n_randbelow c) (n_random c) (n_urandom c) (n_clock c) (S (n_call c)) (n_sleep c),
   [e]).
Proof. intros H. unfold transport_call. now rewrite H. Qed.

Lemma transport_call_raises (e : effect) (x : exn) (o : oracle) (c : cursor) :
  fault o (n_call c) = Some x ->
  transport_call e o c =
  (Raise x,
   Cursor (n_randbelow c) (n_random c) (n_urandom c) (n_clock c) (S (n_call c)) (n_sleep c),
   [e]).
Proof. intros H. unfold transport_call. now rewrite H. Qed.

Lemma bind_raise {A B} (m : M A) (f : A -> M B) o c e c1 out1 :
  m o c = (Raise e, c1, out1) -> bind m f o c = (Raise e, c1, out1).
Proof. intros H. now rewrite bind_unfold, H. Qed.

Lemma random_choice_keeps_call {A} (xs : list A) (o : oracle) (c : cursor) :
  n_call (snd (fst (random_choice xs o c))) = n_call c.
Proof. unfold random_choice. now destruct (nth_error xs _). Qed.

(** A round at a cursor whose transport call does not raise and whose
    sleep is not interrupted. *)
Lemma simulation_round_at (client : Client) (o : oracle) (c : cursor) :
  oracle_ok o -> fault o (n_call c) = None -> sigint o (n_sleep c) = false ->
  exists c' es,
    (store <- random_choice STORES ;;
     item_id <- random_choice ITEMS ;;
     quantity_change <- random_choice [-2; -1; 1; 2] ;;
     publish_inventory_event client store item_id quantity_change) o c =
    (Ok tt, c', es) /\ InventoryEvents.is_round es /\
    n_call c' = S (n_call c) /\ n_sleep c' = S (n_sleep c).
Proof.
  intros Hok Hnf Hni.
  destruct (simulation_round_exact client o c Hok Hnf Hni) as [E R].
  exists (round_cursor c 1), (round_effects o c).
  split; [exact E|]. split; [exact R|].
  unfold round_cursor. cbn [n_call n_sleep]. lia.
Qed.

(** A round at a cursor whose transport call raises. *)
Lemma simulation_round_raises (client : Client) (o : oracle) (c : cursor)
    (e : exn) :
  oracle_ok o -> fault o (n_call c) = Some e ->
  exists c' topic text,
    (store <- random_choice STORES ;;
     item_id <- random_choice ITEMS ;;
     quantity_change <- random_choice [-2; -1; 1; 2] ;;
     publish_inventory_event client store item_id quantity_change) o c =
    (Raise e, c', [MqttPublish topic text]) /\
    is_inventory_publish (MqttPublish topic text).
Proof.
  intros Hok Hf.
  destruct (random_choice_ok STORES o c Hok ltac:(discriminate))
    as (store & c1 & Hs & Es).
  pose proof (random_choice_keeps_call STORES o c) as K1.
  rewrite Es in K1. cbn [fst snd] in K1.
  rewrite (bind_ok _ _ _ _ _ _ _ Es).
  destruct (random_choice_ok ITEMS o c1 Hok ltac:(discriminate))
    as (item_id & c2 & Hi & Ei).
  pose proof (random_choice_keeps_call ITEMS o c1) as K2.
  rewrite Ei in K2. cbn [fst snd] in K2.
  rewrite (bind_ok _ _ _ _ _ _ _ Ei).
  destruct (random_choice_ok [-2; -1; 1; 2] o c2 Hok ltac:(discriminate))
    as (qc & c3 & Hq & Eq).
  pose proof (random_choice_keeps_call [-2; -1; 1; 2] o c2) as K3.
  rewrite Eq in K3. cbn [fst snd] in K3.
  rewrite (bind_ok _ _ _ _ _ _ _ Eq).
  rewrite publish_inventory_event_run. cbv zeta.
  assert (Hc : n_call c3 = n_call c) by congruence.
  rewrite Hc, Hf.
  do 3 eexists. split; [reflexivity|]. apply constructed_payload_publish.
Qed.

(** The loop up to the first call that raises. *)
Lemma rounds_until_fault (client : Client) (o : oracle) (e : exn) :
  oracle_ok o ->
  forall (k : nat) (xs : list nat) (c : cursor),
    (k < List.length xs)%nat ->
    (forall i, (i < k)%nat -> fault o (n_call c + i)%nat = None) ->
    (forall i, (i < k)%nat -> sigint o (n_sleep c + i)%nat = false) ->
    fault o (n_call c + k)%nat = Some e ->
    exists c' rounds topic text,
      for_in xs (fun _ =>
        store <- random_choice STORES ;;
        item_id <- random_choice ITEMS ;;
        quantity_change <- random_choice [-2; -1; 1; 2] ;;
        publish_inventory_event client store item_id quantity_change) o c =
      (Raise e, c', List.concat rounds ++ [MqttPublish topic text])%list /\
      List.length rounds = k /\ Forall InventoryEvents.is_round rounds /\
      is_inventory_publish (MqttPublish topic text).
Proof.
  intros Hok. induction k as [|k IH]; intros [|x xs] c Hlen Hbefore Hquiet Hat;
    try (simpl in Hlen; lia); cbn [for_in].
  - rewrite Nat.add_0_r in Hat.
    destruct (simulation_round_raises client o c e Hok Hat)
      as (c' & topic & text & E & P).
    exists c', [], topic, text. rewrite (bind_raise _ _ _ _ _ _ _ E).
    repeat split; auto.
  - assert (H0 : fault o (n_call c) = None).
    { rewrite <- (Nat.add_0_r (n_call c)). apply Hbefore. lia. }
    assert (Q0 : sigint o (n_sleep c) = false).
    { rewrite <- (Nat.add_0_r (n_sleep c)). apply Hquiet. lia. }
    destruct (simulation_round_at client o c Hok H0 Q0)
      as (c1 & es & E & R & K & KS).
    destruct (IH xs c1) as (c' & rounds & topic & text & E' & L & F & P).
    + simpl in Hlen. lia.
    + intros i Hi. rewrite K. replace (S (n_call c) + i)%nat
        with (n_call c + S i)%nat by lia. apply Hbefore. lia.
    + intros i Hi. rewrite KS. replace (S (n_sleep c) + i)%nat
        with (n_sleep c + S i)%nat by lia. apply Hquiet. lia.
    + rewrite K. replace (S (n_call c) + k)%nat
        with (n_call c + S k)%nat by lia. exact Hat.
    + exists c', (es :: rounds), topic, text.
      rewrite (bind_ok _ _ _ _ _ _ _ E), E'. cbn [List.concat].
      rewrite <- app_assoc. repeat split; simpl; auto.
Qed.

(** X1.  When [connect] raises, nothing is published: the error line is
    printed and the cleanup still calls [loop_stop] and [disconnect],
    although [loop_start] was never called.  When [loop_start] raises
    the run is the same after the two calls.  The script returns
    normally in both cases. *)
Theorem connection_failure_goes_straight_to_cleanup (o : oracle) (c : cursor)
    (e : exn) :
  (fault o (n_call c) = Some e ->
   fst (fst (InventoryEvents.main o c)) = Ok tt /\
   snd (InventoryEvents.main o c) =
   [MqttConnect "localhost" 1883 60; Print (LineError e);
    MqttLoopStop; MqttDisconnect; Print LineFinished]) /\
  (fault o (n_call c) = None -> fault o (S (n_call c)) = Some e ->
   fst (fst (InventoryEvents.main o c)) = Ok tt /\
   snd (InventoryEvents.main o c) =
   [MqttConnect "localhost" 1883 60; MqttLoopStart; Print (LineError e);
    MqttLoopStop; MqttDisconnect; Print LineFinished]).
Proof.
  split.
  - intros Hf. rewrite main_of_body. unfold simulation_body, client_connect.
    rewrite (bind_raise _ _ _ _ _ _ _ (transport_call_raises _ e o c Hf)).
    split; reflexivity.
  - intros H0 H1. rewrite main_of_body.
    unfold simulation_body, client_connect, client_loop_start.
    rewrite (bind_ok _ _ _ _ _ _ _ (transport_call_at _ o c H0)).
    rewrite (bind_raise _ _ _ _ _ _ _ (transport_call_raises _ e o
                (Cursor (n_randbelow c) (n_random c) (n_urandom c) (n_clock c)
                        (S (n_call c)) (n_sleep c)) H1)).
    split; reflexivity.
Qed.

Lemma connection_failure_goes_straight_to_cleanup_witness :
  let e := Exn "ConnectionRefusedError" "[Errno 111] Connection refused" in
  fault Samples.unreachable (n_call cursor0) = Some e /\
  fst (fst (InventoryEvents.main Samples.unreachable cursor0)) = Ok tt /\
  snd (InventoryEvents.main Samples.unreachable cursor0) =
  [MqttConnect "localhost" 1883 60; Print (LineError e);
   MqttLoopStop; MqttDisconnect; Print LineFinished].
Proof.
  intros e. split; [reflexivity|].
  exact (proj1 (connection_failure_goes_straight_to_cleanup
                  Samples.unreachable cursor0 e) eq_refl).
Defined.

(** X2.  When the publish of round [k] (counted from 0) is the first
    call that raises, and no interrupt arrives in the sleeps of the
    rounds before, the [k] rounds before it are complete, the failed
    publish is the last one and is not confirmed on the console, the
    sleep of 5 is skipped, and the run ends with the error line and the
    cleanup. *)
Theorem failed_publish_ends_the_simulation (o : oracle) (c : cursor)
    (e : exn) (k : nat) :
  oracle_ok o -> (k < 100)%nat ->
  (forall i, (i < 2 + k)%nat -> fault o (n_call c + i)%nat = None) ->
  (forall i, (i < k)%nat -> sigint o (n_sleep c + i)%nat = false) ->
  fault o (n_call c + (2 + k))%nat = Some e ->
  exists c' rounds topic text,
    InventoryEvents.main o c =
    (Ok tt, c',
     [MqttConnect "localhost" 1883 60; MqttLoopStart; Print LineStarting]
       ++ List.concat rounds
       ++ [MqttPublish topic text; Print (LineError e);
           MqttLoopStop; MqttDisconnect; Print LineFinished])%list /\
    List.length rounds = k /\ Forall InventoryEvents.is_round rounds /\
    is_inventory_publish (MqttPublish topic text).
Proof.
  intros Hok Hk Hbefore Hquiet Hat. rewrite main_of_body.
  unfold simulation_body, client_connect, client_loop_start.
  assert (H0 : fault o (n_call c) = None).
  { rewrite <- (Nat.add_0_r (n_call c)). apply Hbefore. lia. }
  assert (H1 : fault o (S (n_call c)) = None).
  { replace (S (n_call c)) with (n_call c + 1)%nat by lia. apply Hbefore. lia. }
  rewrite (bind_ok _ _ _ _ _ _ _ (transport_call_at _ o c H0)).
  rewrite (bind_ok _ _ _ _ _ _ _ (transport_call_at _ o
                (Cursor (n_randbelow c) (n_random c) (n_urandom c) (n_clock c)
                        (S (n_call c)) (n_sleep c)) H1)).
  rewrite (bind_ok (print LineStarting) _ _ _ tt _ [Print LineStarting] eq_refl).
  match goal with |- context [bind (for_in ?xs ?body) ?f o ?c3] =>
    destruct (rounds_until_fault MqttClient o e Hok k xs c3)
      as (c' & rounds & topic & text & E & L & F & P) end.
  - unfold range. rewrite length_seq. exact Hk.
  - intros i Hi. cbn [n_call].
    replace (S (S (n_call c)) + i)%nat with (n_call c + (2 + i))%nat by lia.
    apply Hbefore. lia.
  - exact Hquiet.
  - cbn [n_call].
    replace (S (S (n_call c)) + k)%nat with (n_call c + (2 + k))%nat by lia.
    exact Hat.
  - rewrite (bind_raise _ _ _ _ _ _ _ E).
    exists c', rounds, topic, text. repeat split; auto.
    cbn [app]. now rewrite <- !app_assoc.
Qed.

Lemma stormy_ok : oracle_ok Samples.stormy.
Proof.
  destruct calm_ok. constructor; assumption.
Qed.

Lemma failed_publish_ends_the_simulation_witness :
  let e := Exn "OSError" "[Errno 32] Broken pipe" in
  exists c' rounds topic text,
    InventoryEvents.main Samples.stormy cursor0 =
    (Ok tt, c',
     [MqttConnect "localhost" 1883 60; MqttLoopStart; Print LineStarting]
       ++ List.concat rounds
       ++ [MqttPublish topic text; Print (LineError e);
           MqttLoopStop; MqttDisconnect; Print LineFinished])%list /\
    List.length rounds = 3%nat /\ Forall InventoryEvents.is_round rounds /\
    is_inventory_publish (MqttPublish topic text).
Proof.
  intros e.
  apply (failed_publish_ends_the_simulation Samples.stormy cursor0 e 3).
  - exact stormy_ok.
  - lia.
  - intros i Hi.
    do 5 (destruct i as [|i]; [reflexivity|]). lia.
  - intros i Hi. reflexivity.
  - reflexivity.
Defined.

(* ================================================================== *)
(** * Further properties: the RPC variant when a call raises *)
(* ================================================================== *)

(** X3.  When the send of round [k] (counted from 0) is the first call
    that raises, no interrupt arrives in the sleeps of the rounds
    before, and the loop is run for more than [k] rounds, the
    script ends with that exception uncaught (exit status 1): the [k]
    rounds before are complete, the failed reading is sent but not
    printed, no sleep follows, and the channel is closed. *)
Theorem failed_send_ends_the_script (o : oracle) (c : cursor) (e : exn)
    (k fuel : nat) :
  (k < fuel)%nat ->
  (forall i, (i < k)%nat -> fault o (n_call c + i)%nat = None) ->
  (forall i, (i < k)%nat -> sigint o (n_sleep c + i)%nat = false) ->
  fault o (n_call c + k)%nat = Some e ->
  exists c' rounds c0 msg,
    SimulateSensorData.main fuel o c =
    (Raise e, c',
     GrpcChannelOpen "localhost:9090"
       :: List.concat rounds
       ++ [GrpcSendTelemetryData msg; GrpcChannelClose])%list /\
    List.length rounds = k /\
    Forall (SimulateSensorData.is_round o) rounds /\
    fst (fst (generate_sensor_data o c0)) = Ok msg /\
    exit_status (fst (fst (SimulateSensorData.main fuel o c))) = Some 1.
Proof.
  intros Hk Hbefore Hquiet Hat.
  pose proof (sends_until_fault o e k fuel c Hk Hbefore Hquiet Hat) as E.
  destruct (cycle_effects_run o (cycle_cursor c k)) as (msg & c1 & G & R).
  rewrite R in E. cbn [firstn] in E.
  eexists. exists (map (fun i => cycle_effects o (cycle_cursor c i)) (seq 0 k)),
    (cycle_cursor c k), msg.
  rewrite main_of_loop, E. cbn [fst exit_status].
  split; [now rewrite <- app_assoc|].
  split; [now rewrite length_map, length_seq|].
  split; [|split; [now rewrite G | reflexivity]].
  apply Forall_forall. intros es Hes.
  apply in_map_iff in Hes as (i & <- & _). apply cycle_effects_is_round.
Qed.

Lemma failed_send_ends_the_script_witness :
  let e := Exn "OSError" "[Errno 32] Broken pipe" in
  exists c' rounds c0 msg,
    SimulateSensorData.main 8 Samples.stormy cursor0 =
    (Raise e, c',
     GrpcChannelOpen "localhost:9090"
       :: List.concat rounds
       ++ [GrpcSendTelemetryData msg; GrpcChannelClose])%list /\
    List.length rounds = 5%nat /\
    Forall (SimulateSensorData.is_round Samples.stormy) rounds /\
    fst (fst (generate_sensor_data Samples.stormy c0)) = Ok msg /\
    exit_status (fst (fst (SimulateSensorData.main 8 Samples.stormy cursor0)))
    = Some 1.
Proof.
  intros e.
  apply (failed_send_ends_the_script Samples.stormy cursor0 e 5 8).
  - lia.
  - intros i Hi. do 5 (destruct i as [|i]; [reflexivity|]). lia.
  - intros i Hi. reflexivity.
  - reflexivity.
Defined.

(* ================================================================== *)
(** * Further properties: every run of the broker variant *)
(* ================================================================== *)

Lemma published_app (a b : list effect) :
  published (a ++ b) = (published a ++ published b)%list.
Proof. apply flat_map_app. Qed.

Lemma confirmed_app (a b : list effect) :
  confirmed (a ++ b) = (confirmed a ++ confirmed b)%list.
Proof. apply flat_map_app. Qed.

Lemma publishes_le {A} (n n' : nat) (m : M A) :
  (n <= n')%nat -> publishes n m -> publishes n' m.
Proof.
  intros Hle H o c. destruct (H o c) as (H1 & H2 & H3).
  cbv zeta. repeat split; auto. lia.
Qed.

Lemma publishes_bind {A B} (n k : nat) (m : M A) (f : A -> M B) :
  publishes n m -> (forall a, publishes k (f a)) ->
  publishes (n + k) (bind m f).
Proof.
  intros Hm Hf o c. specialize (Hm o c). cbv zeta in *.
  rewrite bind_unfold.
  destruct (m o c) as [[[a|e| |] c1] out1]; cbn [fst snd] in *.
  - destruct Hm as (L1 & _ & E1).
    specialize (Hf a o c1). cbv zeta in Hf.
    destruct (f a o c1) as [[r2 c2] out2]; cbn [fst snd] in *.
    destruct Hf as (L2 & R2 & E2).
    rewrite published_app, confirmed_app, length_app.
    split; [lia|]. split; [exact R2|].
    destruct r2 as [b|e| |].
    + congruence.
    + destruct E2 as [E2|[last E2]].
      * left. congruence.
      * right. exists last. rewrite E1, E2. now rewrite app_assoc.
    + congruence.
    + destruct E2 as [E2|[last E2]].
      * left. congruence.
      * right. exists last. rewrite E1, E2. now rewrite app_assoc.
  - destruct Hm as (L1 & R1 & E1). split; [lia|]. split; [discriminate | exact E1].
  - destruct Hm as (_ & R1 & _). congruence.
  - destruct Hm as (L1 & R1 & E1). split; [lia|]. split; [discriminate | exact E1].
Qed.

Lemma publishes_ret {A} (a : A) : publishes 0 (ret a).
Proof. intros o c. cbn. repeat split; auto. discriminate. Qed.

Lemma publishes_emit (e : effect) :
  published [e] = [] -> confirmed [e] = [] -> publishes 0 (emit e).
Proof.
  intros Hp Hc o c. cbn [emit fst snd]. cbv zeta. rewrite Hp, Hc.
  repeat split; auto. discriminate.
Qed.

Lemma publishes_transport_call (e : effect) :
  published [e] = [] -> confirmed [e] = [] -> publishes 0 (transport_call e).
Proof.
  intros Hp Hc o c. unfold transport_call.
  destruct (fault o (n_call c)); cbn [fst snd]; cbv zeta; rewrite Hp, Hc;
    repeat split; auto; discriminate.
Qed.

Lemma publishes_time_sleep (seconds : number) :
  publishes 0 (time_sleep seconds).
Proof.
  intros o c. unfold time_sleep.
  destruct (sigint o (n_sleep c)); cbn; repeat split; auto; discriminate.
Qed.

Lemma publishes_random_choice {A} (xs : list A) :
  publishes 0 (random_choice xs).
Proof.
  intros o c. unfold random_choice.
  destruct (nth_error xs _); cbn; repeat split; auto; discriminate.
Qed.

Lemma publishes_publish_inventory_event
    (client : Client) (store item_id : string) (quantity_change : Z) :
  publishes 1 (publish_inventory_event client store item_id quantity_change).
Proof.
  intros o c. rewrite publish_inventory_event_run. cbv zeta.
  destruct (fault o (n_call c)).
  - cbn. repeat split; auto; try discriminate. right. eexists. reflexivity.
  - destruct (sigint o (n_sleep c)); cbn; repeat split; auto; discriminate.
Qed.

Lemma publishes_for_in {A} (xs : list A) (body : A -> M unit) :
  (forall x, publishes 1 (body x)) ->
  publishes (List.length xs) (for_in xs body).
Proof.
  intros Hb. induction xs as [|x xs IH]; cbn [for_in List.length].
  - apply publishes_ret.
  - apply (publishes_bind 1 (List.length xs)); auto.
Qed.

Lemma publishes_simulation_body (client : Client) :
  publishes 100 (simulation_body client).
Proof.
  unfold simulation_body, client_connect, client_loop_start, print.
  apply (publishes_bind 0 100); [now apply publishes_transport_call | intros _].
  apply (publishes_bind 0 100); [now apply publishes_transport_call | intros _].
  apply (publishes_bind 0 100); [now apply publishes_emit | intros _].
  apply (publishes_bind 100 0); [| intros _; apply publishes_time_sleep].
  apply (publishes_le (List.length (range 100)));
    [unfold range; rewrite length_seq; lia|].
  apply publishes_for_in. intros _.
  apply (publishes_bind 0 1); [apply publishes_random_choice | intros store].
  apply (publishes_bind 0 1); [apply publishes_random_choice | intros item_id].
  apply (publishes_bind 0 1); [apply publishes_random_choice | intros qc].
  apply publishes_publish_inventory_event.
Qed.

(** X4.  Whatever the outside does, a run publishes at most 100 events,
    and the console confirms its publishes in order with the same topic
    and text: all of them, or all but the last one (the one that
    raised). *)
Theorem console_confirms_the_publishes (o : oracle) (c : cursor) :
  let out := snd (InventoryEvents.main o c) in
  (List.length (published out) <= 100)%nat /\
  (confirmed out = published out \/
   exists last, published out = (confirmed out ++ [last])%list).
Proof.
  cbv zeta. rewrite main_of_body.
  destruct (publishes_simulation_body MqttClient o c) as (L & R & E).
  cbv zeta in *.
  destruct (simulation_body MqttClient o c) as [[[[]|e| |] c1] out1];
    cbn [fst snd] in *; try congruence;
    rewrite published_app, confirmed_app; cbn [published confirmed flat_map app];
    rewrite !app_nil_r; split; auto.
Qed.

Lemma total_sleep_steps_app (a b : list effect) :
  total_sleep_steps (a ++ b) = total_sleep_steps a + total_sleep_steps b.
Proof.
  induction a as [|e a IH]; [reflexivity|].
  destruct e; cbn [app total_sleep_steps]; rewrite IH; lia.
Qed.

Lemma rounds_sleep_steps (rounds : list (list effect)) :
  Forall InventoryEvents.is_round rounds ->
  10 * grid * Z.of_nat (List.length rounds)
  <= total_sleep_steps (List.concat rounds)
  <= 20 * grid * Z.of_nat (List.length rounds).
Proof.
  induction 1 as [|es rounds Hr _ IH]; [cbn; lia|].
  destruct Hr as (store & item_id & qc & ts & eid & d & _ & _ & _ & Hd & ->).
  cbn [List.concat List.length]. rewrite total_sleep_steps_app.
  cbn [total_sleep_steps sleep_steps].
  unfold Qle, float_value, inject_Z in Hd. cbn [Qnum Qden] in Hd.
  change (Z.pos (Z.to_pos grid)) with grid in Hd. lia.
Qed.

(** X5.  When no call raises and no interrupt arrives, the sleeps of a
    run add up to at least 1005 and at most 2005 time units: 100 delays
    between 10 and 20, and the final 5. *)
Theorem complete_run_sleeps_1005_to_2005 (o : oracle) (c : cursor) :
  oracle_ok o -> no_fault o -> no_interrupt o ->
  (inject_Z 1005 <= total_sleep (snd (InventoryEvents.main o c))
   <= inject_Z 2005)%Q.
Proof.
  intros Hok Hnf Hni.
  destruct (simulation_body_ok MqttClient o c Hok Hnf Hni)
    as (c' & rounds & E & L & F).
  rewrite main_of_body, E. cbn [snd].
  pose proof (rounds_sleep_steps rounds F) as H. rewrite L in H.
  unfold total_sleep, Qle, inject_Z. cbn [Qnum Qden].
  change (Z.pos (Z.to_pos grid)) with grid.
  rewrite !total_sleep_steps_app. cbn [total_sleep_steps sleep_steps].
  assert (0 < grid) by reflexivity. lia.
Qed.

Lemma complete_run_sleeps_1005_to_2005_witness :
  oracle_ok Samples.calm /\ no_fault Samples.calm /\
  no_interrupt Samples.calm /\
  (inject_Z 1005 <= total_sleep (snd (InventoryEvents.main Samples.calm cursor0))
   <= inject_Z 2005)%Q.
Proof.
  split; [exact calm_ok|]. split; [exact calm_no_fault|].
  split; [exact calm_no_interrupt|].
  exact (complete_run_sleeps_1005_to_2005 Samples.calm cursor0
           calm_ok calm_no_fault calm_no_interrupt).
Defined.

Lemma count_app (f : effect -> bool) (a b : list effect) :
  count f (a ++ b) = (count f a + count f b)%nat.
Proof. unfold count. now rewrite filter_app, length_app. Qed.

Lemma count_none (f : effect -> bool) (l : list effect) :
  Forall (fun e => f e = false) l -> count f l = 0%nat.
Proof.
  unfold count. induction 1 as [|e l He _ IH]; [reflexivity|].
  cbn [filter]. now rewrite He.
Qed.

Lemma after_connect_no_session (client : Client) :
  emits not_session
    (client_loop_start client ;;
     print LineStarting ;;
     for_in (range 100) (fun _ =>
       store <- random_choice STORES ;;
       item_id <- random_choice ITEMS ;;
       quantity_change <- random_choice [-2; -1; 1; 2] ;;
       publish_inventory_event client store item_id quantity_change) ;;
     time_sleep (NInt 5)).
Proof.
  assert (Hp : forall s i q,
             emits not_session (publish_inventory_event client s i q)).
  { intros s i q o c. rewrite publish_inventory_event_run. cbv zeta.
    destruct (fault o (n_call c)); cbn [snd];
      repeat constructor. }
  unfold client_loop_start, print.
  emits_walk ltac:(repeat split) ltac:(apply Hp).
Qed.

Lemma simulation_body_session (client : Client) (o : oracle) (c : cursor) :
  exists out',
    snd (simulation_body client o c) = MqttConnect "localhost" 1883 60 :: out' /\
    Forall not_session out'.
Proof.
  unfold simulation_body, client_connect. rewrite bind_unfold.
  unfold transport_call at 1.
  destruct (fault o (n_call c)).
  - exists []. split; [reflexivity | constructor].
  - match goal with |- context [bind ?m ?f o ?c1] =>
      pose proof (after_connect_no_session client o c1) as H;
      destruct (bind m f o c1) as [[r c2] out2] end.
    exists out2. split; [reflexivity | exact H].
Qed.

(** X6.  Whatever the outside does, a run starts with the one connect
    to localhost:1883 (keepalive 60) and calls [loop_stop] and
    [disconnect] exactly once each. *)
Theorem one_connect_one_cleanup (o : oracle) (c : cursor) :
  let out := snd (InventoryEvents.main o c) in
  hd_error out = Some (MqttConnect "localhost" 1883 60) /\
  count is_connect out = 1%nat /\
  count is_loop_stop out = 1%nat /\
  count is_disconnect out = 1%nat.
Proof.
  cbv zeta. rewrite main_of_body.
  destruct (simulation_body_session MqttClient o c) as (out' & E & F).
  pose proof (proj2 (simulation_body_quiet MqttClient) o c) as Hh.
  destruct (simulation_body MqttClient o c) as [[[[]|e| |] c1] out1];
    cbn [fst snd] in *; subst out1.
  - split; [reflexivity|].
    change (MqttConnect "localhost" 1883 60 :: out')
      with ([MqttConnect "localhost" 1883 60] ++ out')%list.
    rewrite !count_app.
    rewrite !(count_none _ out') by
      (eapply Forall_impl; [|exact F]; intros x Hx; apply Hx).
    repeat split; reflexivity.
  - split; [reflexivity|].
    change (MqttConnect "localhost" 1883 60 :: out')
      with ([MqttConnect "localhost" 1883 60] ++ out')%list.
    rewrite !count_app.
    rewrite !(count_none _ out') by
      (eapply Forall_impl; [|exact F]; intros x Hx; apply Hx).
    repeat split; reflexivity.
  - congruence.
  - split; [reflexivity|].
    change (MqttConnect "localhost" 1883 60 :: out')
      with ([MqttConnect "localhost" 1883 60] ++ out')%list.
    rewrite !count_app.
    rewrite !(count_none _ out') by
      (eapply Forall_impl; [|exact F]; intros x Hx; apply Hx).
    repeat split; reflexivity.
Qed.

(* ================================================================== *)
(** * Further properties: the texts of an event *)
(* ================================================================== *)

Lemma nibble_range (y : Z) : 0 <= Z.land y 15 < 16.
Proof.
  change 15 with (Z.ones 4). rewrite Z.land_ones by lia.
  apply Z.mod_pos_bound. reflexivity.
Qed.

Ltac nibble_cases x H :=
  assert (x = 0 \/ x = 1 \/ x = 2 \/ x = 3 \/ x = 4 \/ x = 5 \/ x = 6 \/
          x = 7 \/ x = 8 \/ x = 9 \/ x = 10 \/ x = 11 \/ x = 12 \/
          x = 13 \/ x = 14 \/ x = 15) as H by lia;
  repeat (destruct H as [H|H]; [rewrite H in *|]); [..|rewrite H in *].

Lemma hex_digit_is_hex (y : Z) :
  is_hex_char (hex_digit (Z.land y 15)) = true.
Proof.
  pose proof (nibble_range y) as R.
  remember (Z.land y 15) as x eqn:E. clear E.
  nibble_cases x H; reflexivity.
Qed.

Lemma uuid4_version_nibble (r : Z) :
  Z.land (Z.shiftr (uuid4_int r) 76) 15 = 4.
Proof.
  apply Z.bits_inj'. intros n Hn.
  rewrite Z.land_spec, Z.shiftr_spec by lia.
  destruct (Z.ltb_spec n 4) as [Hlt|Hge].
  - unfold uuid4_int.
    rewrite Z.lor_spec, Z.land_spec, Z.lor_spec, Z.land_spec.
    assert (n = 0 \/ n = 1 \/ n = 2 \/ n = 3) as [-> | [-> | [-> | ->]]] by lia;
      destruct (Z.testbit r _); reflexivity.
  - rewrite (Z.bits_above_log2 15 n), (Z.bits_above_log2 4 n)
      by (simpl; lia).
    apply andb_false_r.
Qed.

Lemma uuid4_variant_nibble (r : Z) :
  8 <= Z.land (Z.shiftr (uuid4_int r) 60) 15 <= 11.
Proof.
  assert (H3 : Z.testbit (Z.land (Z.shiftr (uuid4_int r) 60) 15) 3 = true).
  { rewrite Z.land_spec, Z.shiftr_spec by lia. unfold uuid4_int.
    rewrite Z.lor_spec, Z.land_spec, Z.lor_spec, Z.land_spec.
    destruct (Z.testbit r _); reflexivity. }
  assert (H2 : Z.testbit (Z.land (Z.shiftr (uuid4_int r) 60) 15) 2 = false).
  { rewrite Z.land_spec, Z.shiftr_spec by lia. unfold uuid4_int.
    rewrite Z.lor_spec, Z.land_spec, Z.lor_spec, Z.land_spec.
    destruct (Z.testbit r _); reflexivity. }
  pose proof (nibble_range (Z.shiftr (uuid4_int r) 60)) as R.
  remember (Z.land (Z.shiftr (uuid4_int r) 60) 15) as x eqn:E. clear E.
  nibble_cases x H; try lia; vm_compute in H2, H3; discriminate.
Qed.

(** X7.  Whatever sixteen bytes are drawn, the event_id is the text of
    a version 4 UUID: 36 characters, lower-case hexadecimal digits in
    groups of 8, 4, 4, 4 and 12 separated by dashes, with 4 as first
    digit of the third group and 8, 9, a or b as first digit of the
    fourth. *)
Theorem event_id_is_uuid4_text
    (client : Client) (store item_id : string) (quantity_change : Z)
    (o : oracle) (c : cursor) :
  exists event_id,
    dict_get "event_id"
      (constructed_payload store item_id quantity_change o c) =
    Some (VStr event_id) /\
    matches uuid4_shape event_id = true /\
    hd_error
      (snd (publish_inventory_event client store item_id quantity_change o c)) =
    Some (MqttPublish ("store/" ++ store ++ "/inventory")
            (json_dumps (constructed_payload store item_id quantity_change o c))).
Proof.
  eexists. split; [reflexivity|]. split; [|first_effect_is_publish].
  set (U := uuid4_int (urandom16 o (n_urandom c))).
  pose proof (uuid4_version_nibble (urandom16 o (n_urandom c))) as Hv.
  pose proof (uuid4_variant_nibble (urandom16 o (n_urandom c))) as Hr.
  fold U in Hv, Hr.
  unfold uuid_str. cbn [hex_fixed]. cbn [substring append].
  change (4 * Z.of_nat 19) with 76. change (4 * Z.of_nat 15) with 60.
  rewrite Hv.
  remember (Z.land (Z.shiftr U 60) 15) as x eqn:E. clear E.
  unfold uuid4_shape. cbn [matches].
  rewrite !hex_digit_is_hex. cbn [andb].
  assert (x = 8 \/ x = 9 \/ x = 10 \/ x = 11) as [-> | [-> | [-> | ->]]] by lia;
    reflexivity.
Qed.

(** The decimal text of a number: how long it is and what it is made
    of. *)
Lemma of_uint_acc_lower (d : Decimal.uint) :
  forall acc,
    Z.pos acc * 10 ^ Z.of_nat (Decimal.nb_digits d)
    <= Z.pos (Pos.of_uint_acc d acc).
Proof.
  induction d; intros acc; cbn [Pos.of_uint_acc Decimal.nb_digits];
    [rewrite Z.pow_0_r; lia | ..];
    match goal with
    | |- _ <= Z.pos (Pos.of_uint_acc d ?a) =>
        specialize (IHd a);
        rewrite Nat2Z.inj_succ, Z.pow_succ_r by lia;
        assert (0 < 10 ^ Z.of_nat (Decimal.nb_digits d))
          by (apply Z.pow_pos_nonneg; lia);
        nia
    end.
Qed.

Lemma to_uint_digits_bound (p : positive) :
  10 ^ (Z.of_nat (Decimal.nb_digits (Pos.to_uint p)) - 1) <= Z.pos p.
Proof.
  pose proof (DecimalPos.Unsigned.of_to p) as E.
  pose proof (to_uint_head p) as Hh.
  destruct (Pos.to_uint p) as [|d|d|d|d|d|d|d|d|d|d]; try contradiction;
    cbn [Pos.of_uint Decimal.nb_digits] in *; injection E as E;
    rewrite <- E;
    match goal with
    | |- _ <= Z.pos (Pos.of_uint_acc d ?a) =>
        pose proof (of_uint_acc_lower d a) as L
    end;
    replace (Z.of_nat (S (Decimal.nb_digits d)) - 1)
      with (Z.of_nat (Decimal.nb_digits d)) by lia;
    assert (0 < 10 ^ Z.of_nat (Decimal.nb_digits d))
      by (apply Z.pow_pos_nonneg; lia);
    nia.
Qed.

Lemma string_of_uint_length (u : Decimal.uint) :
  String.length (NilEmpty.string_of_uint u) = Decimal.nb_digits u.
Proof. induction u; cbn; congruence. Qed.

Lemma string_of_uint_digits (u : Decimal.uint) :
  all_chars is_digit (NilEmpty.string_of_uint u) = true.
Proof. induction u; cbn; auto. Qed.

Lemma int_repr_nonneg (n : Z) :
  0 <= n ->
  all_chars is_digit (int_repr n) = true /\
  10 ^ (Z.of_nat (String.length (int_repr n)) - 1) <= Z.max n 1.
Proof.
  intros Hn. unfold int_repr. destruct n as [|p|p]; [| |lia].
  - split; reflexivity.
  - cbn [Z.to_int NilZero.string_of_int]. unfold NilZero.string_of_uint.
    pose proof (to_uint_head p) as Hh.
    pose proof (to_uint_digits_bound p) as Hb.
    pose proof (string_of_uint_digits (Pos.to_uint p)) as Hd.
    pose proof (string_of_uint_length (Pos.to_uint p)) as Hl.
    destruct (Pos.to_uint p); try contradiction;
      (split; [exact Hd | rewrite Hl; lia]).
Qed.

Lemma has_shape_digits (s : string) :
  all_chars is_digit s = true ->
  has_shape (repeat Digit (String.length s)) s = true.
Proof.
  induction s as [|c s IH]; [reflexivity|].
  cbn [all_chars String.length repeat has_shape shape_ok].
  intros H. apply andb_true_iff in H as [-> H]. now apply IH.
Qed.

Lemma has_shape_zeros (k : nat) :
  has_shape (repeat Digit k) (string_of_list_ascii (repeat "0"%char k)) = true.
Proof. induction k; [reflexivity | exact IHk]. Qed.

(** ["%0wd" % n] is [w] digits when [n] has at most [w] digits. *)
Lemma fmt_0d_digits (w : nat) (n : Z) :
  (0 < w)%nat -> 0 <= n < 10 ^ Z.of_nat w ->
  has_shape (repeat Digit w) (fmt_0d w n) = true.
Proof.
  intros Hw Hn. unfold fmt_0d. destruct (Z.ltb_spec n 0); [lia|].
  destruct (int_repr_nonneg n ltac:(lia)) as [Hd Hb].
  assert (Hlen : (String.length (int_repr n) <= w)%nat).
  { destruct (Nat.le_gt_cases (String.length (int_repr n)) w) as [|Hgt];
      [assumption|exfalso].
    assert (10 ^ Z.of_nat w <= 10 ^ (Z.of_nat (String.length (int_repr n)) - 1))
      by (apply Z.pow_le_mono_r; lia).
    assert (10 ^ 1 <= 10 ^ Z.of_nat w) by (apply Z.pow_le_mono_r; lia).
    lia. }
  unfold zero_pad.
  replace w with ((w - String.length (int_repr n))
                  + String.length (int_repr n))%nat at 1 by lia.
  rewrite repeat_app. apply has_shape_app.
  - apply has_shape_zeros.
  - now apply has_shape_digits.
Qed.

Lemma fmt_0d_four_digits (n : Z) :
  0 <= n <= 9999 ->
  has_shape [Digit; Digit; Digit; Digit] (fmt_0d 4 n) = true.
Proof.
  intros H. apply (fmt_0d_digits 4); [lia|].
  change (10 ^ Z.of_nat 4) with 10000. lia.
Qed.

Lemma fmt_0d_six_digits (n : Z) :
  0 <= n <= 999999 ->
  has_shape [Digit; Digit; Digit; Digit; Digit; Digit] (fmt_0d 6 n) = true.
Proof.
  intros H. apply (fmt_0d_digits 6); [lia|].
  change (10 ^ Z.of_nat 6) with 1000000. lia.
Qed.

Lemma isoformat_date_time_shape (t : datetime) :
  datetime_in_range t ->
  has_shape shape_iso_seconds
    (fmt_0d 4 (year t) ++ "-" ++ fmt_0d 2 (month t) ++ "-" ++ fmt_0d 2 (day t)
     ++ "T" ++ fmt_0d 2 (hour t) ++ ":" ++ fmt_0d 2 (minute t) ++ ":"
     ++ fmt_0d 2 (second t)) = true.
Proof.
  intros (Hy & Hmo & Hd & Hh & Hmi & Hs & _).
  change shape_iso_seconds with
    ([Digit; Digit; Digit; Digit] ++ [Lit "-"%char] ++ [Digit; Digit] ++
     [Lit "-"%char] ++ [Digit; Digit] ++ [Lit "T"%char] ++ [Digit; Digit] ++
     [Lit ":"%char] ++ [Digit; Digit] ++ [Lit ":"%char] ++ [Digit; Digit])%list.
  repeat (apply has_shape_app;
          [first [ apply fmt_0d_four_digits; lia
                 | apply fmt_0d_two_digits; lia
                 | reflexivity ] |]).
  apply fmt_0d_two_digits; lia.
Qed.

(** X8.  For a clock reading in the ranges of [datetime], the timestamp
    of an event reads YYYY-MM-DDTHH:MM:SS.ffffff (26 characters), except
    when the microsecond is 0: the fraction is then left out and the
    timestamp reads YYYY-MM-DDTHH:MM:SS (19 characters). *)
Theorem event_timestamp_shape
    (store item_id : string) (quantity_change : Z) (o : oracle) (c : cursor) :
  datetime_in_range (wall_clock o (n_clock c)) ->
  exists ts,
    dict_get "timestamp"
      (constructed_payload store item_id quantity_change o c) =
    Some (VStr ts) /\
    has_shape (if microsecond (wall_clock o (n_clock c)) =? 0
               then shape_iso_seconds else shape_iso_micro) ts = true.
Proof.
  intros Hr. eexists. split; [reflexivity|].
  unfold isoformat.
  pose proof (isoformat_date_time_shape _ Hr) as Hs.
  destruct Hr as (_ & _ & _ & _ & _ & _ & Hus).
  destruct (Z.eqb_spec (microsecond (wall_clock o (n_clock c))) 0) as [E|NE].
  - assert (Hnil : forall s, s ++ "" = s)
      by (induction s; simpl; congruence).
    rewrite Hnil. exact Hs.
  - match type of Hs with has_shape _ ?S = true =>
      match goal with |- has_shape _ ?G = true =>
        replace G
          with (S ++ "." ++ fmt_0d 6 (microsecond (wall_clock o (n_clock c))))
          by (now rewrite !string_app_assoc)
      end
    end.
    unfold shape_iso_micro. apply has_shape_app; [exact Hs|].
    apply (has_shape_app [Lit "."%char] _ "." _); [reflexivity|].
    apply fmt_0d_six_digits. lia.
Qed.

Lemma event_timestamp_shape_witness :
  datetime_in_range (wall_clock Samples.calm (n_clock cursor0)) /\
  exists ts,
    dict_get "timestamp"
      (constructed_payload "paris" "HAT-004" 1 Samples.calm cursor0) =
    Some (VStr ts) /\
    has_shape (if microsecond (wall_clock Samples.calm (n_clock cursor0)) =? 0
               then shape_iso_seconds else shape_iso_micro) ts = true.
Proof.
  assert (H : datetime_in_range (wall_clock Samples.calm (n_clock cursor0))).
  { unfold datetime_in_range. cbn. lia. }
  split; [exact H|].
  exact (event_timestamp_shape "paris" "HAT-004" 1 Samples.calm cursor0 H).
Defined.

Lemma all_chars_app (P : ascii -> bool) (a b : string) :
  all_chars P (a ++ b) = all_chars P a && all_chars P b.
Proof.
  induction a as [|x a IH]; [reflexivity|].
  cbn [append all_chars]. now rewrite IH, andb_assoc.
Qed.

Lemma escape_char_printable (c : ascii) :
  all_chars is_printable (escape_char c) = true.
Proof. destruct c as [[] [] [] [] [] [] [] []]; reflexivity. Qed.

Lemma encode_basestring_ascii_printable (s : string) :
  all_chars is_printable (encode_basestring_ascii s) = true.
Proof.
  unfold encode_basestring_ascii. cbn [all_chars].
  rewrite all_chars_app. cbn.
  induction s as [|c s IH]; [reflexivity|].
  cbn [escape_chars]. rewrite all_chars_app, escape_char_printable in *.
  exact IH.
Qed.

Lemma string_of_uint_printable (u : Decimal.uint) :
  all_chars is_printable (NilEmpty.string_of_uint u) = true.
Proof. induction u; cbn; auto. Qed.

Lemma int_repr_printable (n : Z) : all_chars is_printable (int_repr n) = true.
Proof.
  unfold int_repr, NilZero.string_of_int, NilZero.string_of_uint.
  destruct (Z.to_int n) as [u|u]; destruct u; cbn [all_chars];
    try reflexivity;
    rewrite ?(string_of_uint_printable u); try reflexivity;
    match goal with
    | |- context [NilEmpty.string_of_uint ?v] =>
        change (all_chars is_printable (NilEmpty.string_of_uint v) = true)
        || (cbn [NilEmpty.string_of_uint all_chars];
            rewrite ?(string_of_uint_printable u); reflexivity)
    end; apply string_of_uint_printable.
Qed.

Lemma dumps_item_printable (kv : string * value) :
  all_chars is_printable (dumps_item kv) = true.
Proof.
  unfold dumps_item. rewrite !all_chars_app.
  rewrite encode_basestring_ascii_printable. cbn [andb].
  destruct (snd kv); cbn [dumps_value].
  - now rewrite encode_basestring_ascii_printable.
  - now rewrite int_repr_printable.
Qed.

Lemma json_dumps_printable (d : dict) :
  all_chars is_printable (json_dumps d) = true.
Proof.
  unfold json_dumps. cbn [append all_chars]. rewrite all_chars_app.
  cbn [andb]. rewrite andb_true_r. change (is_printable "{") with true.
  cbn [andb].
  induction d as [|kv d IH]; [reflexivity|].
  destruct d as [|kv' d].
  - apply dumps_item_printable.
  - change (dumps_items (kv :: kv' :: d))
      with (dumps_item kv ++ ", " ++ dumps_items (kv' :: d)).
    rewrite !all_chars_app, dumps_item_printable, IH. reflexivity.
Qed.

(** X9.  The text that [publish_inventory_event] publishes is made of
    printable ASCII characters only, whatever characters the store and
    the item name contain. *)
Theorem published_text_is_printable_ascii
    (client : Client) (store item_id : string) (quantity_change : Z)
    (o : oracle) (c : cursor) :
  exists text rest,
    snd (publish_inventory_event client store item_id quantity_change o c) =
    MqttPublish ("store/" ++ store ++ "/inventory") text :: rest /\
    all_chars is_printable text = true.
Proof.
  destruct (publish_inventory_event_head client store item_id
              quantity_change o c) as [rest E].
  eexists. exists rest. split; [exact E|]. apply json_dumps_printable.
Qed.

(** X10.  Two calls of [publish_inventory_event] that publish the same
    text were made for the same store, the same item and the same
    quantity change, at the same clock reading and with the same
    event_id: the text determines the event. *)
Theorem same_text_same_event
    (client client' : Client) (store store' item_id item_id' : string)
    (quantity_change quantity_change' : Z)
    (o o' : oracle) (c c' : cursor) (topic topic' text : string) :
  hd_error
    (snd (publish_inventory_event client store item_id quantity_change o c)) =
  Some (MqttPublish topic text) ->
  hd_error
    (snd (publish_inventory_event client' store' item_id' quantity_change'
            o' c')) =
  Some (MqttPublish topic' text) ->
  store = store' /\ item_id = item_id' /\ quantity_change = quantity_change' /\
  constructed_payload store item_id quantity_change o c =
  constructed_payload store' item_id' quantity_change' o' c'.
Proof.
  intros H1 H2.
  destruct (publish_inventory_event_head client store item_id
              quantity_change o c) as [rest1 E1].
  destruct (publish_inventory_event_head client' store' item_id'
              quantity_change' o' c') as [rest2 E2].
  rewrite E1 in H1. rewrite E2 in H2. cbn [hd_error] in *.
  injection H1 as _ T1. injection H2 as _ T2.
  remember (constructed_payload store item_id quantity_change o c)
    as p eqn:Ep.
  remember (constructed_payload store' item_id' quantity_change' o' c')
    as p' eqn:Ep'.
  assert (R : json_loads (json_dumps p) = Some p)
    by (rewrite Ep; apply event_payload_roundtrip).
  assert (R' : json_loads (json_dumps p') = Some p')
    by (rewrite Ep'; apply event_payload_roundtrip).
  rewrite T1 in R. rewrite T2 in R'.
  assert (P : p = p').
  { pose proof (eq_trans (eq_sym R) R') as S.
    exact (f_equal (fun x => match x with Some y => y | None => p end) S). }
  pose proof (f_equal (dict_get "store_id") P) as Hs.
  pose proof (f_equal (dict_get "item_id") P) as Hi.
  pose proof (f_equal (dict_get "quantity_change") P) as Hq.
  rewrite Ep, Ep' in Hs, Hi, Hq.
  change (Some (VStr store) = Some (VStr store')) in Hs.
  change (Some (VStr item_id) = Some (VStr item_id')) in Hi.
  change (Some (VInt quantity_change) = Some (VInt quantity_change')) in Hq.
  split; [congruence|]. split; [congruence|]. split; [congruence|].
  exact P.
Qed.

Lemma same_text_same_event_witness :
  "london" = "london" /\ "HAT-004" = "HAT-004" /\ 2 = 2 /\
  constructed_payload "london" "HAT-004" 2 Samples.calm cursor0 =
  constructed_payload "london" "HAT-004" 2 Samples.calm cursor0.
Proof.
  apply (same_text_same_event MqttClient MqttClient "london" "london"
           "HAT-004" "HAT-004" 2 2 Samples.calm Samples.calm cursor0 cursor0
           "store/london/inventory" "store/london/inventory"
           (json_dumps
              (constructed_payload "london" "HAT-004" 2 Samples.calm cursor0)));
    reflexivity.
Defined.
